(** * DMA leakage calculator (leak-analyzer/scripts/leakage_calculator.py)

    A shallow embedding of the [LeakageCalculator] class and of the Python
    primitives it calls, followed by the properties of the water-network
    metrics engine.

    Numbers.  Python [int] and [float] values are embedded as exact
    rationals ([Q]), and every arithmetic operation is the exact one: [sum],
    [/], [statistics.mean] and [round] do not round to a binary double as
    the interpreter does after each of them.  Equality of numbers is [Qeq]
    ([==]), as Python's [==].  [nan] and the infinities are no values of the
    model.  The statements below either follow the computation of the source
    step by step through these operations, or do not depend on the rounding
    of a double.

    Failure.  A Python exception is a value of [exn]; a computation that may
    raise has type [result A].  Every division, [min], [max], [int(...)],
    [statistics.mean] and [statistics.stdev] is written as the fallible
    operation it is, so that the guards of the source carry proof
    obligations. *)

From Stdlib Require Import QArith Qround Qabs ZArith Ascii String Sorted Lia Lqa.
From stdpp Require Import gmap strings list fin_maps.

Open Scope Q_scope.

(** ** Python primitives *)

Module Py.

(** The exceptions the modelled operations can raise. *)
Inductive exn : Set :=
| KeyError
| ValueError
| StatisticsError
| ZeroDivisionError.

Inductive result (A : Type) : Type :=
| Ok (a : A)
| Raise (e : exn).
Arguments Ok {A} a.
Arguments Raise {A} e.

#[global] Instance result_ret : MRet result := fun A a => Ok a.
#[global] Instance result_bind : MBind result := fun A B f m =>
  match m with
  | Ok a => f a
  | Raise e => Raise e
  end.

(** [x / y] *)
Definition div (x y : Q) : result Q :=
  if Qeq_bool y 0 then Raise ZeroDivisionError else Ok (x / y).

(** [sum(xs)]: left to right, starting from [0]; each addition is exact. *)
Definition sum (xs : list Q) : Q := fold_left Qplus xs 0.

(** [min(xs)] and [max(xs)]: the first extremal element; [ValueError] on
    an empty sequence. *)
Definition min (xs : list Q) : result Q :=
  match xs with
  | [] => Raise ValueError
  | x :: rest => Ok (fold_left (fun m y => if Qlt_le_dec y m then y else m) rest x)
  end.

Definition max (xs : list Q) : result Q :=
  match xs with
  | [] => Raise ValueError
  | x :: rest => Ok (fold_left (fun m y => if Qlt_le_dec m y then y else m) rest x)
  end.

(** Nearest integer, ties to the even neighbour. *)
Definition round_half_even (x : Q) : Z :=
  let f := Qfloor x in
  match Qcompare (x - inject_Z f) (1 # 2) with
  | Lt => f
  | Gt => (f + 1)%Z
  | Eq => if Z.even f then f else (f + 1)%Z
  end.

(** [round(x, ndigits)] *)
Definition round (x : Q) (ndigits : nat) : Q :=
  let scale := inject_Z (10 ^ Z.of_nat ndigits) in
  Qred (inject_Z (round_half_even (x * scale)) / scale).

(** [abs(x)] *)
Definition abs (x : Q) : Q := Qabs x.

(** [len(xs)] as a number. *)
Definition len {A} (xs : list A) : Q := inject_Z (Z.of_nat (length xs)).

(** [statistics.mean(data)]: the exact mean, which the library goes on to
    round to a double; [StatisticsError] without data. *)
Definition mean (data : list Q) : result Q :=
  match data with
  | [] => Raise StatisticsError
  | _ => Ok (sum data / len data)
  end.

Section Stdev.

(** The square root of [math]; it has no rational counterpart and stays
    a parameter of everything that reports a standard deviation. *)
Variable sqrt : Q -> Q.

(** [statistics.stdev(data)]: square root of the sample variance;
    [StatisticsError] below two data points. *)
Definition stdev (data : list Q) : result Q :=
  if (length data <? 2)%nat then Raise StatisticsError
  else
    xbar ← mean data;
    Ok (sqrt (sum (map (fun x => (x - xbar) * (x - xbar)) data) / (len data - 1))).

End Stdev.

(** [s.split(sep)[0]]: the text before the first separator, the whole of
    [s] when there is none. *)
Fixpoint split_head (sep : ascii) (s : string) : string :=
  match s with
  | EmptyString => EmptyString
  | String c rest =>
      if Ascii.eqb c sep then EmptyString else String c (split_head sep rest)
  end.

(** The white space [int] and [float] drop around ASCII text: tab, line
    feed, vertical tab, form feed, carriage return and space. *)
Definition is_space (c : ascii) : bool :=
  let n := nat_of_ascii c in
  ((9 <=? n) && (n <=? 13) || (n =? 32))%nat.

Fixpoint lstrip (s : list ascii) : list ascii :=
  match s with
  | [] => []
  | c :: rest => if is_space c then lstrip rest else s
  end.

Definition strip (s : list ascii) : list ascii :=
  rev (lstrip (rev (lstrip s))).

(** [int(s)] in base ten, for ASCII text: surrounding white space is
    dropped, one sign is allowed, and single underscores may separate
    digits.  Anything else is a [ValueError]. *)
Definition digit_of (c : ascii) : option Z :=
  let n := nat_of_ascii c in
  if ((48 <=? n) && (n <=? 57))%nat then Some (Z.of_nat (n - 48)) else None.

Fixpoint digits (acc : Z) (after_digit : bool) (s : list ascii) : option Z :=
  match s with
  | [] => if after_digit then Some acc else None
  | c :: rest =>
      match digit_of c with
      | Some d => digits (10 * acc + d) true rest
      | None =>
          if Ascii.eqb c "_" && after_digit then digits acc false rest else None
      end
  end.

Definition int (s : string) : result Z :=
  let body := strip (list_ascii_of_string s) in
  let signed :=
    match body with
    | c :: rest =>
        if Ascii.eqb c "-" then Z.opp <$> digits 0 false rest
        else if Ascii.eqb c "+" then digits 0 false rest
        else digits 0 false body
    | [] => None
    end in
  match signed with
  | Some n => Ok n
  | None => Raise ValueError
  end.

(** A value found under a key of a sample: a number or a text. *)
Inductive value : Type :=
| Num (q : Q)
| Str (s : string).

(** The decimal digits at the head of a text, and what follows them. *)
Fixpoint take_digits (s : list ascii) : list Z * list ascii :=
  match s with
  | [] => ([], [])
  | c :: rest =>
      match digit_of c with
      | Some d => let '(ds, tail) := take_digits rest in (d :: ds, tail)
      | None => ([], s)
      end
  end.

Definition digits_value (ds : list Z) : Z :=
  fold_left (fun acc d => (10 * acc + d)%Z) ds 0%Z.

(** An underscore is allowed between two digits only; the text without its
    underscores. *)
Fixpoint drop_underscores (after_digit : bool) (s : list ascii)
    : option (list ascii) :=
  match s with
  | [] => Some []
  | c :: rest =>
      if Ascii.eqb c "_"
      then
        match rest with
        | d :: _ =>
            if after_digit && bool_decide (is_Some (digit_of d))
            then drop_underscores false rest
            else None
        | [] => None
        end
      else
        cons c <$> drop_underscores (bool_decide (is_Some (digit_of c))) rest
  end.

(** An optional sign at the head of a text: whether it is a minus, and what
    follows it. *)
Definition take_sign (s : list ascii) : bool * list ascii :=
  match s with
  | c :: rest =>
      if Ascii.eqb c "-" then (true, rest)
      else if Ascii.eqb c "+" then (false, rest)
      else (false, s)
  | [] => (false, s)
  end.

(** The exponent part of a decimal literal: nothing, or [e] or [E], an
    optional sign and digits, up to the end of the text. *)
Definition exponent (s : list ascii) : option Z :=
  match s with
  | [] => Some 0%Z
  | c :: rest =>
      if Ascii.eqb c "e" || Ascii.eqb c "E"
      then
        let '(negative, rest) := take_sign rest in
        match take_digits rest with
        | ((_ :: _) as ds, []) =>
            Some (if negative then (- digits_value ds)%Z else digits_value ds)
        | _ => None
        end
      else None
  end.

(** The number a decimal literal denotes: white space around it is dropped;
    then come an optional sign, digits with an optional point among, before
    or after them, and an optional exponent.  The spellings of the
    infinities and of [nan] name no number and are not read. *)
Definition decimal (s : string) : option Q :=
  body ← drop_underscores false (strip (list_ascii_of_string s));
  let '(negative, body) := take_sign body in
  let '(whole, body) := take_digits body in
  let '(fraction, body) :=
    match body with
    | c :: rest =>
        if Ascii.eqb c "." then take_digits rest else ([], body)
    | [] => ([], body)
    end in
  match whole ++ fraction with
  | [] => None
  | ds =>
      e ← exponent body;
      let mantissa :=
        inject_Z (digits_value ds) / inject_Z (10 ^ Z.of_nat (length fraction)) in
      let magnitude := mantissa * Qpower 10 e in
      Some (Qred (if negative then - magnitude else magnitude))
  end.

(** [float(v)]: a number is kept, a text is read as a decimal literal, and
    a text that is none is a [ValueError]. *)
Definition float (v : value) : result Q :=
  match v with
  | Num q => Ok q
  | Str s =>
      match decimal s with
      | Some q => Ok q
      | None => Raise ValueError
      end
  end.

End Py.

Import Py.

(** A number stands for itself where a value is expected. *)
Coercion Num : Q >-> value.

(** ** The calculator *)

(** The error names of the design document, as the exceptions that carry
    them: an unparsable hour is the [ValueError] of [int], a pressure series
    without samples the [StatisticsError] of [statistics.mean]. *)
Definition MalformedTimestamp : exn := ValueError.
Definition EmptyInput : exn := StatisticsError.

Module LeakageCalculator.

(** One entry of [self.dma_data]. *)
Record dma_record : Type := {
  total_flow : Q;
  user_total : Q;
  user_flows : list Q;
  leakage : Q;
  leakage_rate : Q
}.

(** [add_dma_data(self, dma_id, total_flow, user_flows)]; the result is the
    updated [self.dma_data]. *)
Definition add_dma_data (dma_data : gmap string dma_record) (dma_id : string)
    (total_flow : Q) (user_flows : list Q) : result (gmap string dma_record) :=
  let user_total := Py.sum user_flows in
  let leakage := total_flow - user_total in
  leakage_rate ←
    (if Qlt_le_dec 0 total_flow
     then q ← Py.div leakage total_flow; mret (q * 100)
     else mret 0);
  mret (<[dma_id := {| total_flow := total_flow;
                       user_total := user_total;
                       user_flows := user_flows;
                       leakage := leakage;
                       leakage_rate := leakage_rate |}]> dma_data).

(** A run of registrations, in order, each on the store the previous one
    left. *)
Fixpoint add_all (dma_data : gmap string dma_record)
    (calls : list (string * Q * list Q)) : result (gmap string dma_record) :=
  match calls with
  | [] => mret dma_data
  | (dma_id, total_flow, user_flows) :: rest =>
      dma_data' ← add_dma_data dma_data dma_id total_flow user_flows;
      add_all dma_data' rest
  end.

(** *** Minimum night flow *)

(** A flow sample [{"time": ..., "flow": ...}]. *)
Module Flow.
Record t : Type := { time : string; flow : value }.
End Flow.

(** The dictionary [calculate_mnf] returns; the key [flow_values] is
    present in one of its two shapes only. *)
Record mnf_result : Type := {
  mnf : Q;
  avg_flow : Q;
  data_points : nat;
  flow_values : option (list Q)
}.

(** [int(data['time'].split(':')[0])] *)
Definition hour_of (time : string) : result Z :=
  Py.int (Py.split_head ":" time).

(** The filtering loop; [filtered_data] is the list built so far. *)
Fixpoint filter_hours (hour_range : Z * Z) (flow_data : list Flow.t)
    (filtered_data : list Q) : result (list Q) :=
  match flow_data with
  | [] => mret filtered_data
  | data :: rest =>
      hour ← hour_of (Flow.time data);
      if ((hour_range.1 <=? hour) && (hour <? hour_range.2))%Z
      then
        flow ← Py.float (Flow.flow data);
        filter_hours hour_range rest (filtered_data ++ [flow])
      else filter_hours hour_range rest filtered_data
  end.

Definition calculate_mnf (flow_data : list Flow.t) (hour_range : Z * Z)
    : result mnf_result :=
  filtered_data ← filter_hours hour_range flow_data [];
  match filtered_data with
  | [] =>
      mret {| mnf := 0; avg_flow := 0; data_points := 0; flow_values := None |}
  | _ =>
      mnf ← Py.min filtered_data;
      avg_flow ← Py.div (Py.sum filtered_data) (Py.len filtered_data);
      mret {| mnf := Py.round mnf 2;
              avg_flow := Py.round avg_flow 2;
              data_points := length filtered_data;
              flow_values := Some (map (fun f => Py.round f 2) filtered_data) |}
  end.

(** The default of [hour_range]. *)
Definition default_hour_range : Z * Z := (2, 4)%Z.

(** *** Pressure anomalies *)

(** A pressure sample [{"time": ..., "pressure": ...}]. *)
Module Pressure.
Record t : Type := { time : string; pressure : Q }.
End Pressure.

(** One entry of [anomalies]. *)
Module Anomaly.
Record t : Type := {
  index : nat;
  time : string;
  pressure : Q;
  avg_pressure : Q;
  deviation : Q;
  type : string
}.
End Anomaly.

(** The dictionary [detect_pressure_anomaly] returns. *)
Record pressure_report : Type := {
  avg_pressure : Q;
  std_pressure : Q;
  min_pressure : Q;
  max_pressure : Q;
  anomalies : list Anomaly.t;
  anomaly_count : nat
}.

(** [abs(pressure - avg_pressure) / avg_pressure if avg_pressure > 0 else 0] *)
Definition deviation_of (avg_pressure pressure : Q) : result Q :=
  if Qlt_le_dec 0 avg_pressure
  then Py.div (Py.abs (pressure - avg_pressure)) avg_pressure
  else mret 0.

(** The loop over [enumerate(pressure_data)], from position [i] on;
    [anomalies] is the list built so far. *)
Fixpoint scan (avg_pressure threshold : Q) (i : nat)
    (pressure_data : list Pressure.t) (anomalies : list Anomaly.t)
    : result (list Anomaly.t) :=
  match pressure_data with
  | [] => mret anomalies
  | data :: rest =>
      let pressure := Pressure.pressure data in
      deviation ← deviation_of avg_pressure pressure;
      if Qlt_le_dec threshold deviation
      then scan avg_pressure threshold (S i) rest
             (anomalies ++
              [{| Anomaly.index := i;
                  Anomaly.time := Pressure.time data;
                  Anomaly.pressure := pressure;
                  Anomaly.avg_pressure := Py.round avg_pressure 3;
                  Anomaly.deviation := Py.round (deviation * 100) 2;
                  Anomaly.type :=
                    if Qlt_le_dec pressure avg_pressure then "low" else "high" |}])
      else scan avg_pressure threshold (S i) rest anomalies
  end.

Section Detector.

Variable sqrt : Q -> Q.

Definition detect_pressure_anomaly (pressure_data : list Pressure.t)
    (threshold : Q) : result pressure_report :=
  let pressures := map Pressure.pressure pressure_data in
  avg_pressure ← Py.mean pressures;
  std_pressure ←
    (if (1 <? length pressures)%nat then Py.stdev sqrt pressures else mret 0);
  anomalies ← scan avg_pressure threshold 0 pressure_data [];
  lo ← Py.min pressures;
  hi ← Py.max pressures;
  mret {| avg_pressure := Py.round avg_pressure 3;
          std_pressure := Py.round std_pressure 3;
          min_pressure := Py.round lo 3;
          max_pressure := Py.round hi 3;
          anomalies := anomalies;
          anomaly_count := length anomalies |}.

End Detector.

(** The default of [threshold]. *)
Definition default_threshold : Q := 15 # 100.

(** *** Status of a leakage rate *)

Record assessment : Type := {
  status : string;
  level : string;
  action : string;
  urgency : string
}.

Definition assess_leakage_status (leakage_rate : Q) : assessment :=
  let '(status, level, action) :=
    if Qlt_le_dec leakage_rate 10
    then ("excellent", "A-优秀", "保持现状，正常维护")
    else if Qlt_le_dec leakage_rate 15
    then ("good", "B-良好", "关注漏损变化，加强巡检")
    else if Qlt_le_dec leakage_rate 25
    then ("warning", "C-需关注", "排查漏水点，制定整改计划")
    else ("critical", "D-严重", "立即启动DMA分区分区检测，重点排查") in
  {| status := status;
     level := level;
     action := action;
     urgency :=
       if Qle_bool 25 leakage_rate then "高"
       else if Qle_bool 15 leakage_rate then "中"
       else "低" |}.

(** *** Figures over all zones *)

(** [self.dma_data.values()] *)
Definition values (dma_data : gmap string dma_record) : list dma_record :=
  (map_to_list dma_data).*2.

(** [sum([1 for d in ... if d['leakage_rate'] >= 25])] *)
Definition critical_count (ds : list dma_record) : nat :=
  fold_left Nat.add
    (map (fun _ => 1%nat)
       (List.filter (fun d => Qle_bool 25 (leakage_rate d)) ds)) 0%nat.

(** The summary block of [generate_dma_report]: the four figures it
    prints, [None] when the block is left out. *)
Record summary_block : Type := {
  total_dmas : nat;
  avg_leakage_rate : Q;
  total_leakage : Q;
  critical : nat
}.

Definition generate_dma_report_summary (dma_data : gmap string dma_record)
    : result (option summary_block) :=
  let total_dmas := size dma_data in
  if (0 <? total_dmas)%nat
  then
    avg_leakage_rate ← Py.mean (map leakage_rate (values dma_data));
    let total_leakage := Py.sum (map leakage (values dma_data)) in
    let critical_count := critical_count (values dma_data) in
    mret (Some {| total_dmas := total_dmas;
                  avg_leakage_rate := avg_leakage_rate;
                  total_leakage := total_leakage;
                  critical := critical_count |})
  else mret None.

(** The [summary] entry of the dictionary [export_dma_report] writes. *)
Module Exported.
Record summary : Type := {
  total_dmas : nat;
  avg_leakage_rate : Q;
  total_leakage : Q
}.
End Exported.

Definition export_dma_report_summary (dma_data : gmap string dma_record)
    : result Exported.summary :=
  let nonempty := (0 <? size dma_data)%nat in
  avg_leakage_rate ←
    (if nonempty
     then m ← Py.mean (map leakage_rate (values dma_data)); mret (Py.round m 2)
     else mret 0);
  let total_leakage :=
    if nonempty then Py.round (Py.sum (map leakage (values dma_data))) 2 else 0 in
  mret {| Exported.total_dmas := size dma_data;
          Exported.avg_leakage_rate := avg_leakage_rate;
          Exported.total_leakage := total_leakage |}.

(** *** The zone blocks of the text report *)

(** [self.dma_data.keys()].  The order is that of the map; the order of
    insertion, which a Python dictionary keeps, is not modelled. *)
Definition keys (dma_data : gmap string dma_record) : list string :=
  (map_to_list dma_data).*1.

(** What one zone block of [generate_dma_report] prints: the zone, the
    figures of its record and the assessment of its rate. *)
Module Zone.
Record block : Type := {
  dma : string;
  data : dma_record;
  assessment : assessment
}.
End Zone.

(** The loop [for dma in dmas]; [report] holds the blocks appended so far.
    A zone that is not in [self.dma_data] is passed over. *)
Fixpoint zone_blocks (dma_data : gmap string dma_record) (dmas : list string)
    (report : list Zone.block) : list Zone.block :=
  match dmas with
  | [] => report
  | dma :: rest =>
      match dma_data !! dma with
      | None => zone_blocks dma_data rest report
      | Some data =>
          zone_blocks dma_data rest
            (report ++
             [{| Zone.dma := dma;
                 Zone.data := data;
                 Zone.assessment :=
                   assess_leakage_status (leakage_rate data) |}])
      end
  end.

(** [dmas = [dma_id] if dma_id else self.dma_data.keys()], then the loop:
    [None] and the empty string both count as no zone given. *)
Definition generate_dma_report_zones (dma_data : gmap string dma_record)
    (dma_id : option string) : list Zone.block :=
  let dmas :=
    match dma_id with
    | Some d => if String.eqb d "" then keys dma_data else [d]
    | None => keys dma_data
    end in
  zone_blocks dma_data dmas [].

End LeakageCalculator.

Import LeakageCalculator.

(** ** Sample data of [main] and of the design document *)

Definition sample_flow : list Flow.t :=
  [ {| Flow.time := "02:00"; Flow.flow := 10 |};
    {| Flow.time := "02:30"; Flow.flow := 8 |};
    {| Flow.time := "03:00"; Flow.flow := 12 |} ].

Definition sample_pressure : list Pressure.t :=
  [ {| Pressure.time := "08:00"; Pressure.pressure := 48 # 100 |};
    {| Pressure.time := "09:00"; Pressure.pressure := 47 # 100 |};
    {| Pressure.time := "10:00"; Pressure.pressure := 32 # 100 |};
    {| Pressure.time := "11:00"; Pressure.pressure := 46 # 100 |};
    {| Pressure.time := "12:00"; Pressure.pressure := 47 # 100 |} ].

(** A day of samples, two of them given as text: three fall in the hours
    from 2 to 4. *)
Definition day_flow : list Flow.t :=
  [ {| Flow.time := "01:30"; Flow.flow := 20 |};
    {| Flow.time := "02:00"; Flow.flow := 10 |};
    {| Flow.time := "02:30"; Flow.flow := Str "8.0" |};
    {| Flow.time := "03:00"; Flow.flow := 12 |};
    {| Flow.time := "04:00"; Flow.flow := 30 |};
    {| Flow.time := "13:00"; Flow.flow := Str "5.5" |} ].



(** The registrations of [main]. *)
Definition main_calls : list (string * Q * list Q) :=
  [ ("DMA-001", 125005 # 10, [1200; 2500; 1800; 3200; 1500]);
    ("DMA-002", 82003 # 10, [900; 1800; 1200; 2100; 800]);
    ("DMA-003", 156008 # 10, [1500; 2800; 2200; 3500; 2000]) ].

(** The first zone of [main] and a zone that loses 30 % of its water. *)
Definition leaky_calls : list (string * Q * list Q) :=
  [ ("DMA-001", 125005 # 10, [1200; 2500; 1800; 3200; 1500]);
    ("DMA-004", 1000, [700]) ].

(** ** Vocabulary of the statements *)

(** What a stored record owes to the readings it was built from. *)
Definition balanced (r : dma_record) : Prop :=
  user_total r == Py.sum (user_flows r) /\
  leakage r == total_flow r - Py.sum (user_flows r) /\
  (0 < total_flow r -> leakage_rate r == leakage r / total_flow r * 100) /\
  (~ 0 < total_flow r -> leakage_rate r == 0).

(** The record a registration stores. *)
Definition record_of (total_flow : Q) (user_flows : list Q) : dma_record :=
  let leakage := total_flow - Py.sum user_flows in
  {| total_flow := total_flow;
     user_total := Py.sum user_flows;
     user_flows := user_flows;
     leakage := leakage;
     leakage_rate :=
       if Qlt_le_dec 0 total_flow then leakage / total_flow * 100 else 0 |}.

(** Whether [assess_leakage_status] calls a record critical. *)
Definition is_critical (d : dma_record) : bool :=
  String.eqb (status (assess_leakage_status (leakage_rate d))) "critical".

(** The test of the filtering loop: the hour parses and lies in the
    half-open range. *)
Definition in_window (hour_range : Z * Z) (data : Flow.t) : bool :=
  match hour_of (Flow.time data) with
  | Ok hour => ((hour_range.1 <=? hour) && (hour <? hour_range.2))%Z
  | Raise _ => false
  end.

(** [float] of each value in turn, up to the first that is no number. *)
Fixpoint floats (vs : list value) : result (list Q) :=
  match vs with
  | [] => Ok []
  | v :: rest => q ← Py.float v; qs ← floats rest; Ok (q :: qs)
  end.

(** The flows the loop keeps. *)
Definition kept (hour_range : Z * Z) (flow_data : list Flow.t)
    : result (list Q) :=
  floats (map Flow.flow (List.filter (in_window hour_range) flow_data)).

(** The dictionary built from the flows kept. *)
Definition mnf_of (filtered_data : list Q) : mnf_result :=
  match filtered_data with
  | [] => {| mnf := 0; avg_flow := 0; data_points := 0; flow_values := None |}
  | x :: rest =>
      {| mnf := Py.round
                  (fold_left (fun m y => if Qlt_le_dec y m then y else m)
                     rest x) 2;
         avg_flow := Py.round (Py.sum filtered_data / Py.len filtered_data) 2;
         data_points := length filtered_data;
         flow_values := Some (map (fun f => Py.round f 2) filtered_data) |}
  end.


(** The reading of the design document for the summary of no zone: the
    four figures of the summary, all zero. *)
Definition empty_summary_all_zero : Prop :=
  exists s,
    generate_dma_report_summary ∅ = Ok (Some s) /\
    total_dmas s = 0%nat /\ avg_leakage_rate s == 0 /\
    total_leakage s == 0 /\ critical s = 0%nat.

(** The reading of the design document for an empty window: a result whose
    [flow_values] is a sequence, empty or all zero. *)
Definition empty_window_with_values (flow_data : list Flow.t)
    (hour_range : Z * Z) : Prop :=
  (forall data, In data flow_data ->
     exists hour, hour_of (Flow.time data) = Ok hour /\
                  ~ (hour_range.1 <= hour < hour_range.2)%Z) ->
  exists r vs,
    calculate_mnf flow_data hour_range = Ok r /\
    data_points r = 0%nat /\ mnf r == 0 /\ avg_flow r == 0 /\
    flow_values r = Some vs /\ Forall (fun v => v == 0) vs.

(** The relative deviation as the loop computes it. *)
Definition deviation_value (avg_pressure pressure : Q) : Q :=
  if Qlt_le_dec 0 avg_pressure
  then Qabs (pressure - avg_pressure) / avg_pressure
  else 0.

(** The entry appended for the sample [data] found at position [i]. *)
Definition anomaly_at (avg_pressure : Q) (i : nat) (data : Pressure.t)
    : Anomaly.t :=
  {| Anomaly.index := i;
     Anomaly.time := Pressure.time data;
     Anomaly.pressure := Pressure.pressure data;
     Anomaly.avg_pressure := Py.round avg_pressure 3;
     Anomaly.deviation :=
       Py.round (deviation_value avg_pressure (Pressure.pressure data) * 100) 2;
     Anomaly.type :=
       if Qlt_le_dec (Pressure.pressure data) avg_pressure
       then "low" else "high" |}.

(** What the loop appends, from position [i] on. *)
Fixpoint flagged_from (avg_pressure threshold : Q) (i : nat)
    (pressure_data : list Pressure.t) : list Anomaly.t :=
  match pressure_data with
  | [] => []
  | data :: rest =>
      if Qlt_le_dec threshold
           (deviation_value avg_pressure (Pressure.pressure data))
      then anomaly_at avg_pressure i data
           :: flagged_from avg_pressure threshold (S i) rest
      else flagged_from avg_pressure threshold (S i) rest
  end.

(** The square root cut after six decimals: a rational stand-in, to run the
    detector on sample data. *)
Definition sqrt_cut (x : Q) : Q :=
  inject_Z (Z.sqrt (Qnum x * 10 ^ 12 / Zpos (Qden x))) / 1000000.

(** Two samples around a negative mean. *)
Definition vacuum_pressure : list Pressure.t :=
  [ {| Pressure.time := "00:00"; Pressure.pressure := -3 |};
    {| Pressure.time := "01:00"; Pressure.pressure := 1 |} ].

(** The relative deviation in the words of the design document: zero when
    the mean is zero, the quotient otherwise. *)
Definition relative_deviation (mean pressure : Q) : Q :=
  if Qeq_bool mean 0 then 0 else Qabs (pressure - mean) / mean.

(** The reading of the design document: the samples flagged are those whose
    [relative_deviation] exceeds the threshold. *)
Definition flags_by_relative_deviation (pressure_data : list Pressure.t)
    (threshold : Q) : Prop :=
  forall (sqrt : Q -> Q) (r : pressure_report) (mean : Q),
    detect_pressure_anomaly sqrt pressure_data threshold = Ok r ->
    Py.mean (map Pressure.pressure pressure_data) = Ok mean ->
    forall i data, pressure_data !! i = Some data ->
      ((exists a, In a (anomalies r) /\ Anomaly.index a = i) <->
       threshold < relative_deviation mean (Pressure.pressure data)).

(** The reading of the design document: the report carries the mean and the
    sample standard deviation themselves. *)
Definition reports_exact_statistics (pressure_data : list Pressure.t)
    (threshold : Q) : Prop :=
  forall (sqrt : Q -> Q) (r : pressure_report),
    detect_pressure_anomaly sqrt pressure_data threshold = Ok r ->
    let pressures := map Pressure.pressure pressure_data in
    let mean := Py.sum pressures / Py.len pressures in
    avg_pressure r == mean /\
    ((1 < length pressures)%nat ->
     std_pressure r
     == sqrt (Py.sum (map (fun x => (x - mean) * (x - mean)) pressures)
              / (Py.len pressures - 1))) /\
    ((length pressures <= 1)%nat -> std_pressure r == 0).

(** The rank of a status, from best to worst. *)
Definition severity (status : string) : nat :=
  if String.eqb status "excellent" then 0
  else if String.eqb status "good" then 1
  else if String.eqb status "warning" then 2
  else 3.

(** The block of a registered zone. *)
Definition block_of (dma : string) (data : dma_record) : Zone.block :=
  {| Zone.dma := dma;
     Zone.data := data;
     Zone.assessment := assess_leakage_status (leakage_rate data) |}.

(** ** The monad *)

Lemma bind_Ok {A B} (f : A -> result B) (m : result A) (b : B) :
  m ≫= f = Ok b <-> exists a, m = Ok a /\ f a = Ok b.
Proof.
  destruct m as [a|e]; cbn; split.
  - eauto.
  - intros (a' & [= <-] & H); exact H.
  - discriminate.
  - intros (a' & [=] & _).
Qed.

(** A division whose divisor is not zero does not fault. *)
Lemma div_Ok (x y : Q) : ~ y == 0 -> Py.div x y = Ok (x / y).
Proof.
  intros Hy. unfold Py.div.
  destruct (Qeq_bool y 0) eqn:E; [|reflexivity].
  apply Qeq_bool_iff in E. contradiction.
Qed.

(** ** The balance of a zone *)

Lemma add_dma_data_Ok dma_data dma_id total_flow user_flows :
  add_dma_data dma_data dma_id total_flow user_flows
  = Ok (<[dma_id := record_of total_flow user_flows]> dma_data).
Proof.
  unfold add_dma_data, record_of.
  destruct (Qlt_le_dec 0 total_flow) as [Hpos|Hle]; cbn; [|reflexivity].
  rewrite div_Ok by lra. reflexivity.
Qed.

Lemma record_of_balanced total_flow user_flows :
  balanced (record_of total_flow user_flows).
Proof.
  unfold balanced, record_of; cbn.
  destruct (Qlt_le_dec 0 total_flow) as [Hpos|Hle];
    repeat split; intros; try reflexivity; lra.
Qed.

Lemma add_all_balanced calls : forall dma_data,
  map_Forall (fun _ r => balanced r) dma_data ->
  exists dma_data',
    add_all dma_data calls = Ok dma_data' /\
    map_Forall (fun _ r => balanced r) dma_data'.
Proof.
  induction calls as [|[[dma_id total_flow] user_flows] rest IH];
    intros dma_data Hinv; cbn.
  - eauto.
  - rewrite add_dma_data_Ok; cbn.
    apply IH, map_Forall_insert_2; [apply record_of_balanced | exact Hinv].
Qed.

(** C1.  Whatever registrations are made and in whatever order, none of
    them faults (the division is guarded), and every record of the store
    they leave satisfies: [leakage] is [total_flow] less the sum of
    [user_flows]; [leakage_rate] is [leakage / total_flow * 100] when
    [total_flow > 0] and [0] otherwise. *)
Theorem add_dma_data_invariant (calls : list (string * Q * list Q)) :
  exists dma_data,
    add_all ∅ calls = Ok dma_data /\
    forall dma_id r, dma_data !! dma_id = Some r ->
      leakage r == total_flow r - Py.sum (user_flows r) /\
      (0 < total_flow r -> leakage_rate r == leakage r / total_flow r * 100) /\
      (~ 0 < total_flow r -> leakage_rate r == 0).
Proof.
  destruct (add_all_balanced calls ∅) as (dma_data & Hrun & Hinv).
  - apply map_Forall_empty.
  - exists dma_data. split; [exact Hrun|].
    intros dma_id r Hr. apply (Hinv dma_id r Hr).
Qed.

(** The first zone of [main], once the three zones are registered: the
    leakage is 2300.5 and the rate is the guarded quotient. *)
Lemma add_dma_data_invariant_witness :
  exists dma_data r,
    add_all ∅ main_calls = Ok dma_data /\
    dma_data !! "DMA-001" = Some r /\
    leakage r == 23005 # 10 /\
    leakage_rate r == leakage r / total_flow r * 100.
Proof.
  destruct (add_dma_data_invariant main_calls) as (dma_data & Hrun & Hinv).
  exists dma_data, (record_of (125005 # 10) [1200; 2500; 1800; 3200; 1500]).
  assert (Hlook : dma_data !! "DMA-001"
                  = Some (record_of (125005 # 10)
                            [1200; 2500; 1800; 3200; 1500])).
  { unfold main_calls in Hrun. cbn [add_all] in Hrun.
    rewrite !add_dma_data_Ok in Hrun. cbn [mbind result_bind mret result_ret] in Hrun.
    injection Hrun as <-.
    rewrite lookup_insert_ne by discriminate.
    rewrite lookup_insert_ne by discriminate.
    apply lookup_insert_eq. }
  destruct (Hinv _ _ Hlook) as (Hleak & Hrate & _).
  split; [exact Hrun|]. split; [exact Hlook|].
  split; [reflexivity|]. apply Hrate. reflexivity.
Defined.

(** ** The status of a leakage rate *)

Lemma Qle_bool_false (x y : Q) : Qle_bool x y = false <-> y < x.
Proof.
  split.
  - intros H. apply Qnot_le_lt. intros Hle.
    apply Qle_bool_iff in Hle. congruence.
  - intros H. destruct (Qle_bool x y) eqn:E; [|reflexivity].
    apply Qle_bool_iff in E. lra.
Qed.

(** Case analysis on the comparisons of [assess_leakage_status]. *)
Ltac tiers rate :=
  unfold assess_leakage_status;
  destruct (Qlt_le_dec rate 10), (Qlt_le_dec rate 15), (Qlt_le_dec rate 25);
  destruct (Qle_bool 25 rate) eqn:E25; destruct (Qle_bool 15 rate) eqn:E15;
  try apply Qle_bool_iff in E25; try apply Qle_bool_false in E25;
  try apply Qle_bool_iff in E15; try apply Qle_bool_false in E15;
  cbn.

(** C2.  [assess_leakage_status] is a function of the rate alone (it has no
    failure mode), and its answer follows the four tiers, the first that
    matches winning: below 10 excellent, level A, urgency low; from 10 and
    below 15 good, level B, urgency low; from 15 and below 25 warning,
    level C, urgency medium; from 25 on critical, level D, urgency high.
    At 9.9 the answer is excellent/A, at 10.0 and at 14.999 good/B, at 25.0
    critical/D. *)
Theorem assess_leakage_status_tiers :
  (forall rate : Q,
     let a := assess_leakage_status rate in
     (rate < 10 ->
      status a = "excellent" /\ level a = "A-优秀" /\ urgency a = "低") /\
     (10 <= rate /\ rate < 15 ->
      status a = "good" /\ level a = "B-良好" /\ urgency a = "低") /\
     (15 <= rate /\ rate < 25 ->
      status a = "warning" /\ level a = "C-需关注" /\ urgency a = "中") /\
     (25 <= rate ->
      status a = "critical" /\ level a = "D-严重" /\ urgency a = "高")) /\
  (let a := assess_leakage_status (99 # 10) in
   status a = "excellent" /\ level a = "A-优秀") /\
  (let a := assess_leakage_status 10 in
   status a = "good" /\ level a = "B-良好") /\
  (let a := assess_leakage_status (14999 # 1000) in
   status a = "good" /\ level a = "B-良好") /\
  (let a := assess_leakage_status 25 in
   status a = "critical" /\ level a = "D-严重").
Proof.
  split; [|repeat split; reflexivity].
  intros rate a; subst a.
  split; [intros H|split; [intros [H H']|split; [intros [H H']|intros H]]];
    tiers rate; repeat split; try reflexivity; lra.
Qed.

(** The tiers at work on the rate 9.9. *)
Lemma assess_leakage_status_tiers_witness :
  status (assess_leakage_status (99 # 10)) = "excellent" /\
  level (assess_leakage_status (99 # 10)) = "A-优秀" /\
  urgency (assess_leakage_status (99 # 10)) = "低".
Proof.
  apply (proj1 (proj1 assess_leakage_status_tiers (99 # 10))).
  reflexivity.
Defined.

(** ** Figures over all zones *)

Lemma fold_add_ones {A} (l : list A) (n : nat) :
  fold_left Nat.add (map (fun _ => 1%nat) l) n = (n + length l)%nat.
Proof.
  revert n; induction l as [|x l IH]; intros n; cbn.
  - lia.
  - rewrite IH. lia.
Qed.

Lemma critical_count_length (ds : list dma_record) :
  critical_count ds
  = length (List.filter (fun d => Qle_bool 25 (leakage_rate d)) ds).
Proof. unfold critical_count. now rewrite fold_add_ones. Qed.

(** The cutoff of the count and the last tier of the status agree. *)
Lemma critical_cutoff (rate : Q) :
  Qle_bool 25 rate = true <-> status (assess_leakage_status rate) = "critical".
Proof.
  split; intros H; unfold assess_leakage_status in *; revert H;
    tiers rate; intros H; try reflexivity; try discriminate; lra.
Qed.

Lemma is_critical_cutoff (d : dma_record) :
  is_critical d = Qle_bool 25 (leakage_rate d).
Proof.
  unfold is_critical.
  destruct (Qle_bool 25 (leakage_rate d)) eqn:E.
  - apply critical_cutoff in E. now rewrite E.
  - apply String.eqb_neq. intros H. apply critical_cutoff in H. congruence.
Qed.

(** C8.  The number of critical zones in the summary counts exactly the
    zones whose status is critical: a record passes the test of the count
    if and only if [assess_leakage_status] of its rate is critical, so the
    count over any store is the number of its records with that status,
    and this is the figure the report prints. *)
Theorem critical_count_consistent (dma_data : gmap string dma_record) :
  (forall d : dma_record,
     Qle_bool 25 (leakage_rate d) = true <->
     status (assess_leakage_status (leakage_rate d)) = "critical") /\
  critical_count (values dma_data)
  = length (List.filter is_critical (values dma_data)) /\
  (forall s : summary_block,
     generate_dma_report_summary dma_data = Ok (Some s) ->
     critical s = length (List.filter is_critical (values dma_data))).
Proof.
  assert (Hcount : critical_count (values dma_data)
                   = length (List.filter is_critical (values dma_data))).
  { rewrite critical_count_length. f_equal.
    apply List.filter_ext. intros d. now rewrite is_critical_cutoff. }
  split; [intros d; apply critical_cutoff|].
  split; [exact Hcount|].
  intros s Hs. unfold generate_dma_report_summary in Hs.
  destruct (0 <? size dma_data)%nat; [|discriminate].
  apply bind_Ok in Hs as (avg & _ & [= <-]). exact Hcount.
Qed.

(** Of the two zones of [leaky_calls] one is critical, and the report
    counts one. *)
Lemma critical_count_consistent_witness :
  exists dma_data s,
    add_all ∅ leaky_calls = Ok dma_data /\
    generate_dma_report_summary dma_data = Ok (Some s) /\
    critical s = 1%nat.
Proof.
  exists (<["DMA-004" := record_of 1000 [700]]>
            (<["DMA-001" := record_of (125005 # 10)
                              [1200; 2500; 1800; 3200; 1500]]> ∅)).
  set (dma_data := <["DMA-004" := _]> _).
  pose proof (proj2 (proj2 (critical_count_consistent dma_data))) as Hcount.
  destruct (generate_dma_report_summary dma_data) as [[s|]|e] eqn:E;
    try (vm_compute in E; discriminate).
  exists s. split; [|split; [reflexivity|]].
  - unfold leaky_calls. cbn [add_all]. now rewrite !add_dma_data_Ok.
  - rewrite (Hcount s eq_refl). reflexivity.
Defined.

(** With no zone registered the text report has no summary block, and so
    no summary of four zeros. *)
Lemma empty_store_has_no_summary_block : ~ empty_summary_all_zero.
Proof. intros (s & Hs & _). discriminate. Qed.

(** C7, as the code has it.  With no zone registered nothing raises: the
    summary that [export_dma_report] writes is zero in its three fields,
    the number of zones, the average rate and the total leakage, and has no
    count of critical zones; the text report, the one place where that
    count is computed, has no summary block.  A summary block, and with it
    a count of critical zones, is there exactly when a zone is registered. *)
Theorem empty_summary :
  export_dma_report_summary ∅
  = Ok {| Exported.total_dmas := 0;
          Exported.avg_leakage_rate := 0;
          Exported.total_leakage := 0 |} /\
  generate_dma_report_summary ∅ = Ok None /\
  forall dma_data : gmap string dma_record,
    (generate_dma_report_summary dma_data = Ok None <-> dma_data = ∅) /\
    ((exists s, generate_dma_report_summary dma_data = Ok (Some s)) <->
     dma_data <> ∅).
Proof.
  split; [reflexivity|]. split; [reflexivity|].
  intros dma_data.
  assert (Hsize : size dma_data = 0%nat <-> dma_data = ∅)
    by apply map_size_empty_iff.
  unfold generate_dma_report_summary.
  destruct (0 <? size dma_data)%nat eqn:E.
  - apply Nat.ltb_lt in E.
    assert (dma_data <> ∅) by (intros H; apply Hsize in H; lia).
    destruct (Py.mean (map leakage_rate (values dma_data))) as [m|e] eqn:Hm;
      cbn.
    + split; [split; [discriminate|tauto]|]. split; [tauto|eauto].
    + exfalso. unfold Py.mean in Hm.
      destruct (map leakage_rate (values dma_data)) eqn:Hv; [|discriminate].
      apply (f_equal (@length _)) in Hv.
      unfold values in Hv. rewrite !length_map, length_map_to_list in Hv.
      cbn in Hv. lia.
  - apply Nat.ltb_ge in E.
    assert (dma_data = ∅) by (apply Hsize; lia).
    cbn. split; [tauto|]. split; [intros (s & [=])|tauto].
Qed.

(** ** Minimum night flow *)

(** The only way [int] fails. *)
Lemma int_Raise (s : string) (e : exn) : Py.int s = Raise e -> e = ValueError.
Proof.
  unfold Py.int.
  destruct (match strip (list_ascii_of_string s) with [] => _ | _ => _ end);
    congruence.
Qed.

Lemma hour_of_cases (time : string) :
  (exists hour, hour_of time = Ok hour) \/ hour_of time = Raise MalformedTimestamp.
Proof.
  destruct (hour_of time) as [hour|e] eqn:E; [eauto|].
  right. apply int_Raise in E. now subst.
Qed.

(** The only way [float] fails. *)
Lemma float_cases (v : value) :
  (exists q, Py.float v = Ok q) \/ Py.float v = Raise ValueError.
Proof.
  destruct v as [q|s]; cbn; [eauto|].
  destruct (Py.decimal s); eauto.
Qed.

Lemma in_window_spec (hour_range : Z * Z) (data : Flow.t) :
  in_window hour_range data = true <->
  exists hour, hour_of (Flow.time data) = Ok hour /\
               (hour_range.1 <= hour < hour_range.2)%Z.
Proof.
  unfold in_window. destruct (hour_of (Flow.time data)) as [hour|e]; split.
  - intros H. exists hour. split; [reflexivity|lia].
  - intros (h & [= <-] & Hh). lia.
  - discriminate.
  - intros (h & [=] & _).
Qed.

Lemma floats_Forall2 {A} (f : A -> value) (l : list A) : forall qs,
  floats (map f l) = Ok qs <->
  List.Forall2 (fun a q => Py.float (f a) = Ok q) l qs.
Proof.
  induction l as [|a l IH]; intros qs; cbn.
  - split.
    + intros [= <-]. constructor.
    + intros H. inversion H. reflexivity.
  - destruct (Py.float (f a)) as [q|e] eqn:Ea; cbn.
    + destruct (floats (map f l)) as [qs'|e] eqn:El; cbn.
      * split.
        -- intros [= <-]. constructor; [exact Ea|]. now apply IH.
        -- intros H. inversion H as [|a' q' l' qs'' Hq Hrest]; subst.
           apply IH in Hrest. congruence.
      * split; [discriminate|].
        intros H. inversion H as [|a' q' l' qs'' Hq Hrest]; subst.
        apply IH in Hrest. discriminate.
    + split; [discriminate|].
      intros H. inversion H; subst. congruence.
Qed.

Lemma floats_Raise (vs : list value) (e : exn) :
  floats vs = Raise e <->
  e = ValueError /\ exists v, In v vs /\ Py.float v = Raise ValueError.
Proof.
  revert e. induction vs as [|v vs IH]; intros e; cbn.
  - split; [discriminate|]. intros (_ & v & [] & _).
  - destruct (float_cases v) as [[q Hq]|Hbad].
    + rewrite Hq; cbn.
      destruct (floats vs) as [qs|e'] eqn:E; cbn.
      * split; [discriminate|].
        intros (-> & v' & [<-|Hin] & Hv'); [congruence|].
        assert (Ok qs = Raise ValueError) by (apply IH; eauto). discriminate.
      * destruct (proj1 (IH e') eq_refl) as (-> & v' & Hin & Hv').
        split.
        -- intros [= <-]. split; [reflexivity|]. eauto.
        -- now intros (-> & _).
    + rewrite Hbad; cbn. split.
      * intros [= <-]. split; [reflexivity|]. eauto.
      * now intros (-> & _).
Qed.

(** When every hour parses the loop returns what [kept] returns, after the
    flows it was given. *)
Lemma filter_hours_kept (hour_range : Z * Z) (flow_data : list Flow.t) :
  forall filtered_data,
    (forall data, In data flow_data ->
       exists hour, hour_of (Flow.time data) = Ok hour) ->
    filter_hours hour_range flow_data filtered_data
    = (kept hour_range flow_data ≫= fun flows => Ok (filtered_data ++ flows)).
Proof.
  unfold kept.
  induction flow_data as [|data rest IH]; intros acc Hparse; cbn.
  - now rewrite app_nil_r.
  - destruct (Hparse data) as [hour Hhour]; [now left|].
    assert (Hrest : forall d, In d rest ->
                      exists h, hour_of (Flow.time d) = Ok h)
      by (intros d Hd; apply Hparse; now right).
    unfold in_window at 1. rewrite Hhour; cbn.
    destruct ((hour_range.1 <=? hour) && (hour <? hour_range.2))%Z; cbn.
    + destruct (Py.float (Flow.flow data)) as [q|e]; cbn; [|reflexivity].
      rewrite (IH _ Hrest).
      destruct (floats _) as [qs|e]; cbn; [|reflexivity].
      now rewrite <- app_assoc.
    + apply IH, Hrest.
Qed.

(** The loop raises for a sample whose hour cannot be read or whose flow,
    the hour being in the range, is no number; it raises for nothing else. *)
Lemma filter_hours_Raise (hour_range : Z * Z) (flow_data : list Flow.t) :
  forall filtered_data e,
    filter_hours hour_range flow_data filtered_data = Raise e <->
    e = ValueError /\
    exists data, In data flow_data /\
      (hour_of (Flow.time data) = Raise MalformedTimestamp \/
       in_window hour_range data = true /\
       Py.float (Flow.flow data) = Raise ValueError).
Proof.
  induction flow_data as [|data rest IH]; intros acc e; cbn.
  - split; [discriminate|]. intros (_ & d & [] & _).
  - destruct (hour_of_cases (Flow.time data)) as [[hour Hhour]|Hbad].
    + assert (Hwin : in_window hour_range data
                     = ((hour_range.1 <=? hour) && (hour <? hour_range.2))%Z)
        by (unfold in_window; now rewrite Hhour).
      rewrite Hhour; cbn.
      destruct ((hour_range.1 <=? hour) && (hour <? hour_range.2))%Z; cbn.
      * destruct (float_cases (Flow.flow data)) as [[q Hq]|Hq];
          rewrite Hq; cbn.
        -- rewrite IH. split.
           ++ intros (-> & d & Hd & Hb). split; [reflexivity|]. exists d. tauto.
           ++ intros (-> & d & [<-|Hd] & Hb).
              ** exfalso. destruct Hb as [Hb|[_ Hb]]; congruence.
              ** split; [reflexivity|]. exists d. tauto.
        -- split.
           ++ intros [= <-]. split; [reflexivity|].
              exists data. split; [now left|right; auto].
           ++ now intros (-> & _).
      * rewrite IH. split.
        -- intros (-> & d & Hd & Hb). split; [reflexivity|]. exists d. tauto.
        -- intros (-> & d & [<-|Hd] & Hb).
           ++ exfalso. destruct Hb as [Hb|[Hb _]]; congruence.
           ++ split; [reflexivity|]. exists d. tauto.
    + rewrite Hbad; cbn. split.
      * intros [= <-]. split; [reflexivity|].
        exists data. split; [now left|now left].
      * now intros (-> & _).
Qed.

(** [min] of a sequence with an element: one of the elements, and none is
    smaller. *)
Lemma fold_min_spec (rest : list Q) : forall x,
  let m := fold_left (fun m y => if Qlt_le_dec y m then y else m) rest x in
  In m (x :: rest) /\ forall y, In y (x :: rest) -> m <= y.
Proof.
  induction rest as [|z rest IH]; intros x; cbn.
  - split; [now left|]. intros y [<-|[]]. lra.
  - destruct (Qlt_le_dec z x) as [Hlt|Hle].
    + destruct (IH z) as [Hin Hmin]. split.
      * right. exact Hin.
      * intros y [<-|Hy]; [|now apply Hmin].
        pose proof (Hmin z (or_introl eq_refl)). cbv zeta in *. lra.
    + destruct (IH x) as [Hin Hmin]. split.
      * destruct Hin as [<-|Hin]; [now left|]. right; now right.
      * intros y [<-|[<-|Hy]].
        -- apply Hmin. now left.
        -- pose proof (Hmin x (or_introl eq_refl)). cbv zeta in *. lra.
        -- apply Hmin. now right.
Qed.

Lemma len_nonzero {A} (xs : list A) : xs <> [] -> ~ Py.len xs == 0.
Proof.
  destruct xs as [|x rest]; [congruence|]. intros _.
  unfold Py.len, Qeq; cbn. lia.
Qed.

(** After the loop nothing raises: [min] and the division are reached with
    a flow at least. *)
Lemma calculate_mnf_filtered (flow_data : list Flow.t) (hour_range : Z * Z) :
  calculate_mnf flow_data hour_range
  = (filter_hours hour_range flow_data [] ≫=
     fun filtered_data => Ok (mnf_of filtered_data)).
Proof.
  unfold calculate_mnf.
  destruct (filter_hours hour_range flow_data []) as [fd|e]; cbn;
    [|reflexivity].
  destruct fd as [|x rest]; [reflexivity|].
  cbn. rewrite div_Ok by (apply len_nonzero; discriminate). reflexivity.
Qed.

Lemma calculate_mnf_parses (flow_data : list Flow.t) (hour_range : Z * Z)
    (r : mnf_result) :
  calculate_mnf flow_data hour_range = Ok r ->
  forall data, In data flow_data ->
    exists hour, hour_of (Flow.time data) = Ok hour.
Proof.
  intros Hr data Hdata.
  destruct (hour_of_cases (Flow.time data)) as [Hok|Hbad]; [exact Hok|].
  assert (Hraise : filter_hours hour_range flow_data [] = Raise ValueError).
  { apply filter_hours_Raise. split; [reflexivity|]. exists data. auto. }
  rewrite calculate_mnf_filtered, Hraise in Hr. discriminate.
Qed.

(** A result is the dictionary of the flows kept. *)
Lemma calculate_mnf_Ok (flow_data : list Flow.t) (hour_range : Z * Z)
    (r : mnf_result) :
  calculate_mnf flow_data hour_range = Ok r ->
  exists flows, kept hour_range flow_data = Ok flows /\ r = mnf_of flows.
Proof.
  intros Hr. pose proof (calculate_mnf_parses _ _ _ Hr) as Hparse.
  rewrite calculate_mnf_filtered, (filter_hours_kept _ _ _ Hparse) in Hr.
  destruct (kept hour_range flow_data) as [flows|e]; [|discriminate].
  cbn in Hr. injection Hr as <-. eauto.
Qed.

(** No sample in the range: the zero result. *)
Lemma calculate_mnf_none_kept (flow_data : list Flow.t) (hour_range : Z * Z) :
  (forall data, In data flow_data ->
     exists hour, hour_of (Flow.time data) = Ok hour) ->
  (forall data, In data flow_data -> in_window hour_range data = false) ->
  calculate_mnf flow_data hour_range
  = Ok {| mnf := 0; avg_flow := 0; data_points := 0; flow_values := None |}.
Proof.
  intros Hparse Hout.
  rewrite calculate_mnf_filtered, (filter_hours_kept _ _ _ Hparse).
  unfold kept.
  assert (Hnone : List.filter (in_window hour_range) flow_data = []).
  { destruct (List.filter (in_window hour_range) flow_data) as [|d l] eqn:E;
      [reflexivity|].
    assert (Hd : In d (List.filter (in_window hour_range) flow_data))
      by (rewrite E; now left).
    apply List.filter_In in Hd as [Hd Hwin].
    rewrite (Hout d Hd) in Hwin. discriminate. }
  now rewrite Hnone.
Qed.




(** With no sample at all the result has no [flow_values]. *)
Lemma empty_window_no_flow_values :
  ~ empty_window_with_values [] default_hour_range.
Proof.
  intros H. destruct H as (r & vs & Hr & _ & _ & _ & Hvs & _).
  - intros data [].
  - cbn in Hr. injection Hr as <-. discriminate.
Qed.

(** C5, as the code has it.  When every sample's hour parses and none lies
    in the range, [calculate_mnf] does not raise and returns
    [data_points = 0], [mnf = 0] and [avg_flow = 0]; the result has no
    [flow_values] entry. *)
Theorem calculate_mnf_empty_window (flow_data : list Flow.t)
    (hour_range : Z * Z) :
  (forall data, In data flow_data ->
     exists hour, hour_of (Flow.time data) = Ok hour /\
                  ~ (hour_range.1 <= hour < hour_range.2)%Z) ->
  calculate_mnf flow_data hour_range
  = Ok {| mnf := 0; avg_flow := 0; data_points := 0; flow_values := None |}.
Proof.
  intros Hout. apply calculate_mnf_none_kept.
  - intros data Hdata. destruct (Hout data Hdata) as (hour & Hhour & _). eauto.
  - intros data Hdata. destruct (Hout data Hdata) as (hour & Hhour & Hnot).
    destruct (in_window hour_range data) eqn:E; [|reflexivity].
    apply in_window_spec in E as (hour' & Hhour' & Hin). congruence.
Qed.

(** A series with a single sample, at five o'clock. *)
Lemma calculate_mnf_empty_window_witness :
  calculate_mnf [ {| Flow.time := "05:00"; Flow.flow := 172 |} ]
    default_hour_range
  = Ok {| mnf := 0; avg_flow := 0; data_points := 0; flow_values := None |}.
Proof.
  apply calculate_mnf_empty_window.
  intros data [<-|[]]. exists 5%Z. split; [reflexivity|].
  cbn. lia.
Defined.




(** ** Pressure anomalies *)

Lemma deviation_of_Ok (avg_pressure pressure : Q) :
  deviation_of avg_pressure pressure
  = Ok (deviation_value avg_pressure pressure).
Proof.
  unfold deviation_of, deviation_value.
  destruct (Qlt_le_dec 0 avg_pressure); [|reflexivity].
  apply div_Ok. lra.
Qed.

Lemma scan_Ok (avg_pressure threshold : Q) (pressure_data : list Pressure.t) :
  forall i anomalies,
    scan avg_pressure threshold i pressure_data anomalies
    = Ok (anomalies ++ flagged_from avg_pressure threshold i pressure_data).
Proof.
  induction pressure_data as [|data rest IH]; intros i acc; cbn.
  - now rewrite app_nil_r.
  - rewrite deviation_of_Ok; cbn.
    destruct (Qlt_le_dec threshold
                (deviation_value avg_pressure (Pressure.pressure data))).
    + rewrite IH. now rewrite <- app_assoc.
    + apply IH.
Qed.

Lemma flagged_from_In (avg_pressure threshold : Q)
    (pressure_data : list Pressure.t) :
  forall i a,
    In a (flagged_from avg_pressure threshold i pressure_data) <->
    exists k data,
      pressure_data !! k = Some data /\
      threshold < deviation_value avg_pressure (Pressure.pressure data) /\
      a = anomaly_at avg_pressure (i + k) data.
Proof.
  induction pressure_data as [|data rest IH]; intros i a; cbn.
  - split; [intros []|]. intros (k & d & Hk & _). discriminate.
  - assert (Hrest :
      In a (flagged_from avg_pressure threshold (S i) rest) <->
      exists k d, (data :: rest) !! S k = Some d /\
        threshold < deviation_value avg_pressure (Pressure.pressure d) /\
        a = anomaly_at avg_pressure (i + S k) d).
    { rewrite IH. split; intros (k & d & Hk & Hd & ->);
        exists k, d; (split; [exact Hk|split; [exact Hd|f_equal; lia]]). }
    destruct (Qlt_le_dec threshold
                (deviation_value avg_pressure (Pressure.pressure data)))
      as [Hflag|Hnot].
    + cbn. rewrite Hrest. split.
      * intros [<-|(k & d & Hk & Hd & ->)].
        -- exists 0%nat, data. rewrite Nat.add_0_r. auto.
        -- exists (S k), d. auto.
      * intros ([|k] & d & Hk & Hd & ->).
        -- left. injection Hk as <-. now rewrite Nat.add_0_r.
        -- right. exists k, d. auto.
    + rewrite Hrest. split.
      * intros (k & d & Hk & Hd & ->). exists (S k), d. auto.
      * intros ([|k] & d & Hk & Hd & ->).
        -- injection Hk as <-. lra.
        -- exists k, d. auto.
Qed.

Lemma flagged_from_sorted (avg_pressure threshold : Q)
    (pressure_data : list Pressure.t) :
  forall i,
    StronglySorted lt
      (map Anomaly.index (flagged_from avg_pressure threshold i pressure_data)).
Proof.
  induction pressure_data as [|data rest IH]; intros i; cbn.
  - constructor.
  - destruct (Qlt_le_dec threshold
                (deviation_value avg_pressure (Pressure.pressure data))).
    + cbn. constructor; [apply IH|].
      apply List.Forall_forall. intros n Hn.
      apply List.in_map_iff in Hn as (a & <- & Ha).
      apply flagged_from_In in Ha as (k & d & _ & _ & ->). cbn. lia.
    + apply IH.
Qed.

Section Detector.

Variable sqrt : Q -> Q.

(** The result of a call, field by field: a mean exists and nothing else
    can fail. *)
Lemma detect_pressure_anomaly_Ok (pressure_data : list Pressure.t)
    (threshold : Q) :
  pressure_data <> [] ->
  let pressures := map Pressure.pressure pressure_data in
  let mean := Py.sum pressures / Py.len pressures in
  exists lo hi,
    Py.min pressures = Ok lo /\ Py.max pressures = Ok hi /\
    detect_pressure_anomaly sqrt pressure_data threshold
    = Ok {| avg_pressure := Py.round mean 3;
            std_pressure :=
              Py.round
                (if (1 <? length pressures)%nat
                 then sqrt (Py.sum (map (fun x => (x - mean) * (x - mean))
                                      pressures)
                            / (Py.len pressures - 1))
                 else 0) 3;
            min_pressure := Py.round lo 3;
            max_pressure := Py.round hi 3;
            anomalies := flagged_from mean threshold 0 pressure_data;
            anomaly_count :=
              length (flagged_from mean threshold 0 pressure_data) |}.
Proof.
  intros Hne pressures mean.
  destruct pressure_data as [|d0 rest]; [congruence|].
  unfold detect_pressure_anomaly. fold pressures.
  assert (Hmean : Py.mean pressures = Ok mean) by reflexivity.
  assert (Hmin : exists lo, Py.min pressures = Ok lo) by (cbn; eauto).
  assert (Hmax : exists hi, Py.max pressures = Ok hi) by (cbn; eauto).
  destruct Hmin as [lo Hlo], Hmax as [hi Hhi].
  exists lo, hi. split; [exact Hlo|]. split; [exact Hhi|].
  rewrite Hmean, Hlo, Hhi. cbn [mbind result_bind].
  rewrite scan_Ok. cbn [mbind result_bind app].
  assert (Hstd :
    (if (1 <? length pressures)%nat then Py.stdev sqrt pressures else mret 0)
    = Ok (if (1 <? length pressures)%nat
          then sqrt (Py.sum (map (fun x => (x - mean) * (x - mean)) pressures)
                     / (Py.len pressures - 1))
          else 0)).
  { destruct (1 <? length pressures)%nat eqn:E; [|reflexivity].
    unfold Py.stdev. apply Nat.ltb_lt in E.
    destruct (length pressures <? 2)%nat eqn:E2.
    - apply Nat.ltb_lt in E2. lia.
    - now rewrite Hmean. }
  rewrite Hstd. reflexivity.
Qed.

Lemma detect_pressure_anomaly_nonempty (pressure_data : list Pressure.t)
    (threshold : Q) (r : pressure_report) :
  detect_pressure_anomaly sqrt pressure_data threshold = Ok r ->
  pressure_data <> [].
Proof. intros Hr ->. discriminate. Qed.

End Detector.

(** Around the mean -1 and against the threshold -0.5 the sample 1 is
    flagged, its deviation being taken as 0, while its quotient is -2. *)
Lemma negative_mean_flags_differ :
  ~ flags_by_relative_deviation vacuum_pressure (-1 # 2).
Proof.
  intros H.
  destruct (detect_pressure_anomaly_Ok sqrt_cut vacuum_pressure (-1 # 2))
    as (lo & hi & _ & _ & Hr); [discriminate|].
  specialize (H sqrt_cut _ _ Hr eq_refl 1%nat
                {| Pressure.time := "01:00"; Pressure.pressure := 1 |} eq_refl).
  destruct H as [H _].
  assert (Hlt : -1 # 2 < relative_deviation
                           (Py.sum (map Pressure.pressure vacuum_pressure)
                            / Py.len (map Pressure.pressure vacuum_pressure)) 1).
  { apply H. eexists. split; [right; left; reflexivity|reflexivity]. }
  vm_compute in Hlt. discriminate.
Qed.

(** C3, as the code has it.  A sample is flagged exactly when its relative
    deviation [|pressure - mean| / mean], taken as 0 when the mean is not
    positive, strictly exceeds the threshold.  A flagged entry carries the
    position, the time and the pressure of its sample, and its type is low
    when the pressure is below the mean and high otherwise.  The entries come
    in increasing position, that is in the order of the input.  On the
    pressures 0.48, 0.47, 0.32, 0.46, 0.47 and the default threshold 0.15 the
    mean is 0.44 and the only entry is the sample 0.32, as low. *)
Theorem detect_pressure_anomaly_flags :
  (forall (sqrt : Q -> Q) (pressure_data : list Pressure.t) (threshold : Q)
          (r : pressure_report),
     detect_pressure_anomaly sqrt pressure_data threshold = Ok r ->
     exists mean,
       Py.mean (map Pressure.pressure pressure_data) = Ok mean /\
       let deviation pressure :=
         if Qlt_le_dec 0 mean then Qabs (pressure - mean) / mean else 0 in
       (forall i data, pressure_data !! i = Some data ->
          ((exists a, In a (anomalies r) /\ Anomaly.index a = i) <->
           threshold < deviation (Pressure.pressure data))) /\
       (forall a, In a (anomalies r) ->
          exists data,
            pressure_data !! Anomaly.index a = Some data /\
            Anomaly.time a = Pressure.time data /\
            Anomaly.pressure a = Pressure.pressure data /\
            (Pressure.pressure data < mean -> Anomaly.type a = "low") /\
            (~ Pressure.pressure data < mean -> Anomaly.type a = "high")) /\
       StronglySorted lt (map Anomaly.index (anomalies r)) /\
       anomaly_count r = length (anomalies r)) /\
  default_threshold == 15 # 100 /\
  (exists mean,
     Py.mean (map Pressure.pressure sample_pressure) = Ok mean /\
     mean == 44 # 100) /\
  (forall sqrt : Q -> Q,
     exists r,
       detect_pressure_anomaly sqrt sample_pressure default_threshold = Ok r /\
       anomalies r
       = [ {| Anomaly.index := 2;
              Anomaly.time := "10:00";
              Anomaly.pressure := 32 # 100;
              Anomaly.avg_pressure := 11 # 25;
              Anomaly.deviation := 2727 # 100;
              Anomaly.type := "low" |} ]).
Proof.
  split; [|split; [reflexivity|split]].
  - intros sqrt pressure_data threshold r Hr.
    pose proof (detect_pressure_anomaly_nonempty _ _ _ _ Hr) as Hne.
    destruct (detect_pressure_anomaly_Ok sqrt pressure_data threshold Hne)
      as (lo & hi & _ & _ & Hr').
    rewrite Hr' in Hr. injection Hr as <-. clear Hr'.
    set (mean := Py.sum (map Pressure.pressure pressure_data)
                 / Py.len (map Pressure.pressure pressure_data)).
    exists mean. split.
    { destruct pressure_data; [congruence|reflexivity]. }
    cbn [anomalies anomaly_count].
    change (fun pressure : Q =>
              if Qlt_le_dec 0 mean then Qabs (pressure - mean) / mean else 0)
      with (deviation_value mean).
    cbv zeta. repeat split.
    + intros (a & Ha & <-).
      apply flagged_from_In in Ha as (k & d & Hk & Hd & ->). cbn in H.
      rewrite Hk in H. now injection H as <-.
    + intros Hflag. exists (anomaly_at mean i data). split; [|reflexivity].
      apply flagged_from_In. exists i, data. auto.
    + intros a Ha.
      apply flagged_from_In in Ha as (k & d & Hk & Hd & ->). cbn.
      exists d. repeat split; try assumption;
        intros Hcmp; destruct (Qlt_le_dec (Pressure.pressure d) mean);
        try reflexivity; lra.
    + apply flagged_from_sorted.
  - eexists. split; [reflexivity|reflexivity].
  - intros sqrt.
    destruct (detect_pressure_anomaly_Ok sqrt sample_pressure default_threshold)
      as (lo & hi & _ & _ & Hr); [discriminate|].
    eexists. split; [exact Hr|]. reflexivity.
Qed.

(** The detector on the sample series, through the general statement. *)
Lemma detect_pressure_anomaly_flags_witness :
  exists mean,
    Py.mean (map Pressure.pressure sample_pressure) = Ok mean /\
    forall a,
      In a (flagged_from (11 # 25) default_threshold 0 sample_pressure) ->
      exists data,
        sample_pressure !! Anomaly.index a = Some data /\
        Anomaly.time a = Pressure.time data.
Proof.
  destruct (detect_pressure_anomaly_Ok sqrt_cut sample_pressure
              default_threshold) as (lo & hi & _ & _ & Hr); [discriminate|].
  destruct (proj1 detect_pressure_anomaly_flags sqrt_cut sample_pressure
              default_threshold _ Hr) as (mean & Hmean & _ & Hentries & _).
  exists mean. split; [exact Hmean|].
  intros a Ha.
  destruct (Hentries a) as (data & Hdata & Htime & _).
  - cbn [anomalies]. vm_compute. vm_compute in Ha. exact Ha.
  - exists data. split; assumption.
Defined.

(** C6.  Without a sample [detect_pressure_anomaly] raises [EmptyInput];
    with one sample or more it returns a report, so it does not raise that
    error. *)
Theorem detect_pressure_anomaly_requires_samples (sqrt : Q -> Q)
    (threshold : Q) :
  detect_pressure_anomaly sqrt [] threshold = Raise EmptyInput /\
  forall pressure_data : list Pressure.t,
    pressure_data <> [] ->
    (exists r, detect_pressure_anomaly sqrt pressure_data threshold = Ok r) /\
    detect_pressure_anomaly sqrt pressure_data threshold <> Raise EmptyInput.
Proof.
  split; [reflexivity|].
  intros pressure_data Hne.
  destruct (detect_pressure_anomaly_Ok sqrt pressure_data threshold Hne)
    as (lo & hi & _ & _ & Hr).
  split; [eauto|]. rewrite Hr. discriminate.
Qed.

(** The sample series is not empty, and the detector returns on it. *)
Lemma detect_pressure_anomaly_requires_samples_witness :
  exists r,
    detect_pressure_anomaly sqrt_cut sample_pressure default_threshold = Ok r.
Proof.
  apply (proj2 (detect_pressure_anomaly_requires_samples sqrt_cut
                  default_threshold) sample_pressure).
  discriminate.
Defined.

(** A single sample of 0.4567 is reported with the average 0.457. *)
Lemma average_is_rounded :
  ~ reports_exact_statistics
      [ {| Pressure.time := "08:00"; Pressure.pressure := 4567 # 10000 |} ]
      default_threshold.
Proof.
  intros H.
  destruct (H sqrt_cut _ eq_refl) as [Havg _].
  vm_compute in Havg. discriminate.
Qed.

(** C10, as the code has it.  In the report [avg_pressure] is the
    arithmetic mean of the pressures rounded to three decimals, and
    [std_pressure] is, for more than one sample, the sample standard
    deviation (the squared deviations from the mean summed and divided by
    [n - 1], under the square root) rounded to three decimals, and 0 for a
    single sample. *)
Theorem detect_pressure_anomaly_statistics (sqrt : Q -> Q)
    (pressure_data : list Pressure.t) (threshold : Q) (r : pressure_report) :
  detect_pressure_anomaly sqrt pressure_data threshold = Ok r ->
  let pressures := map Pressure.pressure pressure_data in
  let mean := Py.sum pressures / Py.len pressures in
  Py.mean pressures = Ok mean /\
  avg_pressure r = Py.round mean 3 /\
  ((1 < length pressures)%nat ->
   std_pressure r
   = Py.round
       (sqrt (Py.sum (map (fun x => (x - mean) * (x - mean)) pressures)
              / (Py.len pressures - 1))) 3) /\
  ((length pressures <= 1)%nat -> std_pressure r = 0).
Proof.
  intros Hr pressures mean.
  pose proof (detect_pressure_anomaly_nonempty _ _ _ _ Hr) as Hne.
  destruct (detect_pressure_anomaly_Ok sqrt pressure_data threshold Hne)
    as (lo & hi & _ & _ & Hr').
  rewrite Hr' in Hr. injection Hr as <-. clear Hr'.
  cbn [avg_pressure std_pressure]. fold pressures. fold mean.
  split; [|split; [reflexivity|split]].
  - subst pressures mean. destruct pressure_data; [congruence|reflexivity].
  - intros Hn. apply Nat.ltb_lt in Hn. now rewrite Hn.
  - intros Hn. apply Nat.ltb_ge in Hn. now rewrite Hn.
Qed.

(** The statistics of the sample series: mean 0.44, deviation 0.067. *)
Lemma detect_pressure_anomaly_statistics_witness :
  exists r,
    detect_pressure_anomaly sqrt_cut sample_pressure default_threshold = Ok r /\
    avg_pressure r = 11 # 25 /\
    std_pressure r = 67 # 1000.
Proof.
  destruct (detect_pressure_anomaly_Ok sqrt_cut sample_pressure
              default_threshold) as (lo & hi & _ & _ & Hr); [discriminate|].
  eexists. split; [exact Hr|].
  destruct (detect_pressure_anomaly_statistics sqrt_cut sample_pressure
              default_threshold _ Hr) as (_ & Havg & Hstd & _).
  split.
  - rewrite Havg. reflexivity.
  - rewrite Hstd; [reflexivity|]. cbn. lia.
Defined.

(** * Further properties of the calculator *)

(** ** Sums and rounding *)

Lemma fold_sum_acc (xs : list Q) : forall a,
  fold_left Qplus xs a == a + fold_left Qplus xs 0.
Proof.
  induction xs as [|x xs IH]; intros a; cbn.
  - lra.
  - rewrite (IH (a + x)), (IH (0 + x)). lra.
Qed.

Lemma sum_cons (x : Q) (xs : list Q) : Py.sum (x :: xs) == x + Py.sum xs.
Proof. unfold Py.sum; cbn. rewrite fold_sum_acc. lra. Qed.

Lemma len_cons {A} (x : A) (xs : list A) : Py.len (x :: xs) == 1 + Py.len xs.
Proof.
  unfold Py.len. rewrite length_cons, Nat2Z.inj_succ, <- Z.add_1_l.
  now rewrite inject_Z_plus.
Qed.

Lemma len_nonneg {A} (xs : list A) : 0 <= Py.len xs.
Proof.
  unfold Py.len. change 0 with (inject_Z 0). rewrite <- Zle_Qle. lia.
Qed.

Lemma len_pos {A} (xs : list A) : xs <> [] -> 0 < Py.len xs.
Proof.
  intros H. destruct xs as [|x xs]; [congruence|].
  rewrite len_cons. pose proof (len_nonneg xs). lra.
Qed.

(** A lower bound of every element bounds the sum, and so does an upper
    bound. *)
Lemma sum_lower (m : Q) (xs : list Q) :
  (forall y, In y xs -> m <= y) -> Py.len xs * m <= Py.sum xs.
Proof.
  induction xs as [|x xs IH]; intros H.
  - change (Py.len (@nil Q)) with 0. change (Py.sum []) with 0. lra.
  - rewrite len_cons, sum_cons.
    pose proof (H x (or_introl eq_refl)).
    assert (Py.len xs * m <= Py.sum xs) by (apply IH; intros; apply H; now right).
    lra.
Qed.

Lemma sum_upper (m : Q) (xs : list Q) :
  (forall y, In y xs -> y <= m) -> Py.sum xs <= Py.len xs * m.
Proof.
  induction xs as [|x xs IH]; intros H.
  - change (Py.len (@nil Q)) with 0. change (Py.sum []) with 0. lra.
  - rewrite len_cons, sum_cons.
    pose proof (H x (or_introl eq_refl)).
    assert (Py.sum xs <= Py.len xs * m) by (apply IH; intros; apply H; now right).
    lra.
Qed.

Lemma sum_below (m : Q) (xs : list Q) :
  xs <> [] -> (forall y, In y xs -> y < m) -> Py.sum xs < Py.len xs * m.
Proof.
  induction xs as [|x xs IH]; intros Hne H; [congruence|].
  rewrite len_cons, sum_cons.
  pose proof (H x (or_introl eq_refl)).
  assert (Py.sum xs <= Py.len xs * m).
  { apply sum_upper. intros y Hy. apply Qlt_le_weak, H. now right. }
  lra.
Qed.

(** Rounding to the nearest integer keeps the order. *)
Lemma round_half_even_mono (x y : Q) :
  x <= y -> (Py.round_half_even x <= Py.round_half_even y)%Z.
Proof.
  intros Hxy. unfold Py.round_half_even.
  pose proof (Qfloor_resp_le x y Hxy) as Hf.
  pose proof (Qfloor_le x) as Hx1. pose proof (Qlt_floor x) as Hx2.
  pose proof (Qfloor_le y) as Hy1. pose proof (Qlt_floor y) as Hy2.
  rewrite inject_Z_plus in Hx2, Hy2.
  destruct (Z.eq_dec (Qfloor x) (Qfloor y)) as [E|E].
  - rewrite <- E in *.
    destruct (Qcompare_spec (x - inject_Z (Qfloor x)) (1 # 2)) as [Cx|Cx|Cx];
      destruct (Qcompare_spec (y - inject_Z (Qfloor x)) (1 # 2)) as [Cy|Cy|Cy];
      try (destruct (Z.even (Qfloor x))); try lia; exfalso; lra.
  - assert (Hlt : (Qfloor x + 1 <= Qfloor y)%Z) by lia.
    destruct (Qcompare (x - inject_Z (Qfloor x)) (1 # 2));
      destruct (Qcompare (y - inject_Z (Qfloor y)) (1 # 2));
      try (destruct (Z.even (Qfloor x))); try (destruct (Z.even (Qfloor y)));
      lia.
Qed.

Lemma scale_pos (ndigits : nat) : 0 < inject_Z (10 ^ Z.of_nat ndigits).
Proof.
  change 0 with (inject_Z 0). rewrite <- Zlt_Qlt.
  apply Z.pow_pos_nonneg; lia.
Qed.

(** [round(x, ndigits)] keeps the order. *)
Lemma round_mono (x y : Q) (ndigits : nat) :
  x <= y -> Py.round x ndigits <= Py.round y ndigits.
Proof.
  intros Hxy. unfold Py.round. cbv zeta.
  pose proof (scale_pos ndigits) as Hs.
  set (scale := inject_Z (10 ^ Z.of_nat ndigits)) in *.
  rewrite !Qred_correct.
  apply Qmult_le_compat_r.
  - rewrite <- Zle_Qle. apply round_half_even_mono.
    apply Qmult_le_compat_r; [exact Hxy|lra].
  - apply Qlt_le_weak, Qinv_lt_0_compat, Hs.
Qed.

(** ** Registration *)

(** X1.  After [add_dma_data] the zone is found in the store with a record
    that holds the readings just given, and every other zone is as it was. *)
Theorem add_dma_data_lookup (dma_data : gmap string dma_record)
    (dma_id : string) (total_flow : Q) (user_flows : list Q) :
  exists dma_data' r,
    add_dma_data dma_data dma_id total_flow user_flows = Ok dma_data' /\
    dma_data' !! dma_id = Some r /\
    LeakageCalculator.total_flow r = total_flow /\
    LeakageCalculator.user_flows r = user_flows /\
    user_total r = Py.sum user_flows /\
    forall other, other <> dma_id -> dma_data' !! other = dma_data !! other.
Proof.
  rewrite add_dma_data_Ok.
  exists (<[dma_id := record_of total_flow user_flows]> dma_data),
         (record_of total_flow user_flows).
  split; [reflexivity|]. split; [apply lookup_insert_eq|].
  repeat split. intros other Hne. now apply lookup_insert_ne.
Qed.

(** X2.  Registering a zone again replaces its record: the store after two
    registrations of one zone is the store after the second alone, so a
    registration repeated with the same readings changes nothing, and the
    number of zones does not grow. *)
Theorem add_dma_data_replaces (dma_data : gmap string dma_record)
    (dma_id : string) (total_flow total_flow' : Q)
    (user_flows user_flows' : list Q) :
  exists first second,
    add_dma_data dma_data dma_id total_flow user_flows = Ok first /\
    add_dma_data first dma_id total_flow' user_flows' = Ok second /\
    add_dma_data dma_data dma_id total_flow' user_flows' = Ok second /\
    add_dma_data first dma_id total_flow user_flows = Ok first /\
    size second = size first.
Proof.
  rewrite !add_dma_data_Ok. eexists _, _.
  split; [reflexivity|]. rewrite !add_dma_data_Ok.
  split; [reflexivity|]. rewrite !insert_insert_eq.
  split; [reflexivity|]. split; [reflexivity|].
  now rewrite !map_size_insert.
Qed.

Lemma add_all_app (calls calls' : list (string * Q * list Q)) :
  forall dma_data,
    add_all dma_data (calls ++ calls')
    = (add_all dma_data calls ≫= fun mid => add_all mid calls').
Proof.
  induction calls as [|[[dma_id total_flow] user_flows] rest IH];
    intros dma_data; cbn; [reflexivity|].
  rewrite add_dma_data_Ok; cbn. apply IH.
Qed.

Lemma add_all_dom (calls : list (string * Q * list Q)) :
  forall dma_data dma_data',
    add_all dma_data calls = Ok dma_data' ->
    dom dma_data' = dom dma_data ∪ list_to_set (map (fun c => c.1.1) calls).
Proof.
  induction calls as [|[[dma_id total_flow] user_flows] rest IH];
    intros dma_data dma_data'; cbn.
  - intros [= <-]. now rewrite (right_id_L ∅ (∪)).
  - rewrite add_dma_data_Ok; cbn. intros H. apply IH in H.
    rewrite H, dom_insert_L.
    now rewrite (comm_L (∪) {[dma_id]}), <- (assoc_L (∪)).
Qed.

Lemma add_all_untouched (calls : list (string * Q * list Q)) (dma_id : string) :
  forall dma_data dma_data',
    add_all dma_data calls = Ok dma_data' ->
    ~ In dma_id (map (fun c => c.1.1) calls) ->
    dma_data' !! dma_id = dma_data !! dma_id.
Proof.
  induction calls as [|[[dma_id' total_flow] user_flows] rest IH];
    intros dma_data dma_data'; cbn.
  - now intros [= <-] _.
  - rewrite add_dma_data_Ok; cbn. intros H Hnot.
    rewrite (IH _ _ H) by tauto.
    apply lookup_insert_ne. tauto.
Qed.

(** X3.  After a run of registrations from the empty store the registered
    zones are exactly the zones named in the run, and a zone holds the
    readings of the last registration that named it. *)
Theorem add_all_last_wins (calls : list (string * Q * list Q))
    (dma_data : gmap string dma_record) :
  add_all ∅ calls = Ok dma_data ->
  (forall dma_id,
     is_Some (dma_data !! dma_id) <-> In dma_id (map (fun c => c.1.1) calls)) /\
  (forall before after dma_id total_flow user_flows,
     calls = before ++ (dma_id, total_flow, user_flows) :: after ->
     ~ In dma_id (map (fun c => c.1.1) after) ->
     exists r,
       dma_data !! dma_id = Some r /\
       LeakageCalculator.total_flow r = total_flow /\
       LeakageCalculator.user_flows r = user_flows).
Proof.
  intros Hrun. split.
  - intros dma_id. rewrite <- elem_of_dom, (add_all_dom _ _ _ Hrun).
    rewrite dom_empty_L, elem_of_union, elem_of_list_to_set, list_elem_of_In.
    split; [intros [H|H]; [now apply not_elem_of_empty in H|exact H]|now right].
  - intros before after dma_id total_flow user_flows -> Hlast.
    rewrite add_all_app in Hrun.
    destruct (add_all ∅ before) as [mid|e] eqn:E; [|discriminate].
    cbn in Hrun. rewrite add_dma_data_Ok in Hrun. cbn in Hrun.
    exists (record_of total_flow user_flows).
    rewrite (add_all_untouched _ _ _ _ Hrun Hlast), lookup_insert_eq.
    repeat split.
Qed.

(** The first zone of [main] is named once and keeps its readings. *)
Lemma add_all_last_wins_witness :
  exists dma_data r,
    add_all ∅ main_calls = Ok dma_data /\
    dma_data !! "DMA-001" = Some r /\
    LeakageCalculator.total_flow r = 125005 # 10.
Proof.
  destruct (add_all_balanced main_calls ∅ (map_Forall_empty _))
    as (dma_data & Hrun & _).
  destruct (proj2 (add_all_last_wins main_calls dma_data Hrun)
              [] (tl main_calls) "DMA-001" (125005 # 10)
              [1200; 2500; 1800; 3200; 1500] eq_refl)
    as (r & Hr & Htotal & _).
  - cbn. intros [H|[H|[]]]; discriminate.
  - exists dma_data, r. auto.
Defined.

(** X4.  When no user reading is negative and the user readings sum to no
    more than the total reading, the stored leakage lies between 0 and the
    total reading and the stored rate between 0 and 100. *)
Theorem add_dma_data_rate_bounds (dma_data dma_data' : gmap string dma_record)
    (dma_id : string) (total_flow : Q) (user_flows : list Q) (r : dma_record) :
  add_dma_data dma_data dma_id total_flow user_flows = Ok dma_data' ->
  dma_data' !! dma_id = Some r ->
  (forall u, In u user_flows -> 0 <= u) ->
  Py.sum user_flows <= total_flow ->
  0 <= leakage r /\ leakage r <= total_flow /\
  0 <= leakage_rate r /\ leakage_rate r <= 100.
Proof.
  rewrite add_dma_data_Ok. intros [= <-]. rewrite lookup_insert_eq.
  intros [= <-] Hnonneg Hsum.
  assert (H0 : 0 <= Py.sum user_flows).
  { pose proof (sum_lower 0 user_flows Hnonneg). lra. }
  unfold record_of; cbn.
  destruct (Qlt_le_dec 0 total_flow) as [Hpos|Hle].
  - repeat split; try lra.
    + apply Qmult_le_0_compat; [|lra].
      apply Qle_shift_div_l; [exact Hpos|lra].
    + assert ((total_flow - Py.sum user_flows) / total_flow <= 1).
      { apply Qle_shift_div_r; [exact Hpos|lra]. }
      lra.
  - repeat split; lra.
Qed.

(** The first zone of [main]: 10200 of 12500.5 reach the users. *)
Lemma add_dma_data_rate_bounds_witness :
  leakage_rate (record_of (125005 # 10) [1200; 2500; 1800; 3200; 1500]) <= 100.
Proof.
  refine (proj2 (proj2 (proj2
    (add_dma_data_rate_bounds ∅ _ "DMA-001" (125005 # 10)
       [1200; 2500; 1800; 3200; 1500] _ (add_dma_data_Ok _ _ _ _)
       (lookup_insert_eq _ _ _) _ _)))).
  - intros u Hu. cbn in Hu.
    repeat (destruct Hu as [<-|Hu]; [discriminate|]). destruct Hu.
  - discriminate.
Defined.

(** ** Status and urgency *)

(** X5.  A higher rate never gets a better status: the rank of the status,
    from excellent to critical, does not decrease with the rate. *)
Theorem assess_leakage_status_monotone (rate rate' : Q) :
  rate <= rate' ->
  (severity (status (assess_leakage_status rate))
   <= severity (status (assess_leakage_status rate')))%nat.
Proof.
  intros Hle. unfold assess_leakage_status.
  destruct (Qlt_le_dec rate 10), (Qlt_le_dec rate 15), (Qlt_le_dec rate 25),
    (Qlt_le_dec rate' 10), (Qlt_le_dec rate' 15), (Qlt_le_dec rate' 25);
    cbn; try lia; exfalso; lra.
Qed.

(** From 12 to 30 the status goes from good to critical. *)
Lemma assess_leakage_status_monotone_witness :
  (severity (status (assess_leakage_status 12))
   <= severity (status (assess_leakage_status 30)))%nat.
Proof. apply assess_leakage_status_monotone. discriminate. Defined.

(** X6.  The urgency, which is computed by comparisons of its own, always
    goes with the status: high exactly for critical, medium exactly for
    warning, low exactly for excellent and good; and the status is one of
    these four. *)
Theorem urgency_matches_status (rate : Q) :
  let a := assess_leakage_status rate in
  (urgency a = "高" <-> status a = "critical") /\
  (urgency a = "中" <-> status a = "warning") /\
  (urgency a = "低" <-> status a = "excellent" \/ status a = "good") /\
  (status a = "excellent" \/ status a = "good" \/
   status a = "warning" \/ status a = "critical").
Proof.
  cbv zeta. tiers rate;
    repeat split; try tauto; try discriminate;
    try (intros [H|H]; discriminate); try lra.
Qed.

(** ** Figures over all zones, continued *)


Lemma values_length (dma_data : gmap string dma_record) :
  length (values dma_data) = size dma_data.
Proof. unfold values. now rewrite length_fmap, length_map_to_list. Qed.

Lemma values_nonempty (dma_data : gmap string dma_record) :
  (0 < size dma_data)%nat -> values dma_data <> [].
Proof.
  intros H E. apply (f_equal (@length _)) in E.
  rewrite values_length in E. cbn in E. lia.
Qed.




(** X8.  When the report prints a summary, the count of critical zones is
    at most the number of zones, and it is at least one as soon as the
    average rate reaches 25. *)
Theorem critical_bounds (dma_data : gmap string dma_record)
    (s : summary_block) :
  generate_dma_report_summary dma_data = Ok (Some s) ->
  (critical s <= total_dmas s)%nat /\
  (25 <= avg_leakage_rate s -> (1 <= critical s)%nat).
Proof.
  intros Hs. unfold generate_dma_report_summary in Hs.
  destruct (0 <? size dma_data)%nat eqn:Hsize; [|discriminate].
  apply Nat.ltb_lt in Hsize.
  pose proof (values_nonempty dma_data Hsize) as Hne.
  apply bind_Ok in Hs as (avg & Havg & [= <-]). cbn.
  rewrite critical_count_length. split.
  - rewrite <- values_length. apply List.filter_length_le.
  - intros H25.
    destruct (List.filter (fun d => Qle_bool 25 (leakage_rate d))
                (values dma_data)) as [|d l] eqn:E; [exfalso|cbn; lia].
    assert (Hall : forall y, In y (map leakage_rate (values dma_data)) -> y < 25).
    { intros y Hy. apply List.in_map_iff in Hy as (d & <- & Hd).
      apply Qle_bool_false.
      destruct (Qle_bool 25 (leakage_rate d)) eqn:Ed; [|reflexivity].
      assert (In d (List.filter (fun d => Qle_bool 25 (leakage_rate d))
                      (values dma_data))) by (apply List.filter_In; auto).
      rewrite E in H. destruct H. }
    assert (Hne' : map leakage_rate (values dma_data) <> []).
    { intros E'. apply Hne. now destruct (values dma_data). }
    pose proof (sum_below 25 _ Hne' Hall) as Hsum.
    pose proof (len_pos _ Hne') as Hlen.
    assert (Hmean : avg == Py.sum (map leakage_rate (values dma_data))
                           / Py.len (map leakage_rate (values dma_data))).
    { destruct (map leakage_rate (values dma_data)); [congruence|].
      now injection Havg as <-. }
    assert (avg < 25).
    { rewrite Hmean. apply Qlt_shift_div_r; [exact Hlen|lra]. }
    lra.
Qed.

(** Of the two zones of [leaky_calls] one is critical. *)
Lemma critical_bounds_witness :
  exists s,
    generate_dma_report_summary
      (<["DMA-004" := record_of 1000 [700]]>
         (<["DMA-001" := record_of (125005 # 10)
                           [1200; 2500; 1800; 3200; 1500]]> ∅))
    = Ok (Some s) /\
    (critical s <= total_dmas s)%nat.
Proof.
  set (dma_data := <["DMA-004" := _]> _).
  destruct (generate_dma_report_summary dma_data) as [[s|]|e] eqn:E;
    try (vm_compute in E; discriminate).
  exists s. split; [reflexivity|].
  pose proof (critical_bounds dma_data s) as H.
  rewrite E in H. exact (proj1 (H eq_refl)).
Defined.

(** X9.  [export_dma_report]'s summary never raises; for a store with a
    zone at least it carries the number of zones of the text report, and
    the average rate and the total leakage of the text report rounded to
    two decimals. *)
Theorem export_matches_report (dma_data : gmap string dma_record) :
  exists e,
    export_dma_report_summary dma_data = Ok e /\
    Exported.total_dmas e = size dma_data /\
    forall s,
      generate_dma_report_summary dma_data = Ok (Some s) ->
      Exported.total_dmas e = total_dmas s /\
      Exported.avg_leakage_rate e = Py.round (avg_leakage_rate s) 2 /\
      Exported.total_leakage e = Py.round (total_leakage s) 2.
Proof.
  unfold export_dma_report_summary, generate_dma_report_summary.
  destruct (0 <? size dma_data)%nat eqn:Hsize.
  - apply Nat.ltb_lt in Hsize.
    pose proof (values_nonempty dma_data Hsize) as Hne.
    destruct (Py.mean (map leakage_rate (values dma_data))) as [m|err] eqn:Hm.
    + cbn. eexists. split; [reflexivity|]. split; [reflexivity|].
      intros s [= <-]. cbn. auto.
    + exfalso. destruct (values dma_data); [congruence|discriminate].
  - cbn. eexists. split; [reflexivity|]. split; [reflexivity|].
    intros s [=].
Qed.

(** ** The zone blocks of the text report *)

Lemma zone_blocks_spec (dma_data : gmap string dma_record) (dmas : list string) :
  forall report,
    zone_blocks dma_data dmas report
    = report ++ omap (fun dma => block_of dma <$> dma_data !! dma) dmas.
Proof.
  induction dmas as [|dma rest IH]; intros report; cbn.
  - now rewrite app_nil_r.
  - destruct (dma_data !! dma) as [data|]; cbn.
    + rewrite IH, <- app_assoc. reflexivity.
    + apply IH.
Qed.

Lemma omap_keys (dma_data : gmap string dma_record)
    (l : list (string * dma_record)) :
  (forall k v, In (k, v) l -> dma_data !! k = Some v) ->
  omap (fun dma => block_of dma <$> dma_data !! dma) l.*1
  = map (fun kv => block_of kv.1 kv.2) l.
Proof.
  induction l as [|[k v] l IH]; intros H; cbn; [reflexivity|].
  rewrite (H k v) by now left. cbn. f_equal.
  apply IH. intros k' v' Hin. apply H. now right.
Qed.

Lemma all_zone_blocks (dma_data : gmap string dma_record) :
  zone_blocks dma_data (keys dma_data) []
  = map (fun kv => block_of kv.1 kv.2) (map_to_list dma_data).
Proof.
  rewrite zone_blocks_spec. cbn. unfold keys. apply omap_keys.
  intros k v Hin. now apply elem_of_map_to_list, list_elem_of_In.
Qed.

(** X10.  Asked for one zone, the report has the block of that zone alone
    if it is registered; if it is not, the report has no zone block and
    nothing is raised. *)
Theorem generate_dma_report_one_zone (dma_data : gmap string dma_record)
    (dma_id : string) :
  dma_id <> "" ->
  (forall data, dma_data !! dma_id = Some data ->
     generate_dma_report_zones dma_data (Some dma_id)
     = [ {| Zone.dma := dma_id;
            Zone.data := data;
            Zone.assessment := assess_leakage_status (leakage_rate data) |} ]) /\
  (dma_data !! dma_id = None ->
   generate_dma_report_zones dma_data (Some dma_id) = []).
Proof.
  intros Hne. unfold generate_dma_report_zones.
  apply String.eqb_neq in Hne. rewrite Hne. cbn.
  split.
  - intros data ->. reflexivity.
  - intros ->. reflexivity.
Qed.

(** A zone that was never registered, asked of the empty store. *)
Lemma generate_dma_report_one_zone_witness :
  generate_dma_report_zones ∅ (Some "DMA-404") = [].
Proof.
  apply (proj2 (generate_dma_report_one_zone ∅ "DMA-404" ltac:(discriminate))).
  reflexivity.
Defined.

(** X11.  Asked for no zone, or for the empty name, the report has one
    block for each registered zone and no other: as many blocks as zones,
    and a block for a zone and a record exactly when the store holds that
    record for that zone. *)
Theorem generate_dma_report_all_zones (dma_data : gmap string dma_record) :
  generate_dma_report_zones dma_data (Some "")
  = generate_dma_report_zones dma_data None /\
  length (generate_dma_report_zones dma_data None) = size dma_data /\
  forall b,
    In b (generate_dma_report_zones dma_data None) <->
    dma_data !! Zone.dma b = Some (Zone.data b) /\
    Zone.assessment b = assess_leakage_status (leakage_rate (Zone.data b)).
Proof.
  split; [reflexivity|].
  unfold generate_dma_report_zones. rewrite all_zone_blocks.
  split; [now rewrite length_map, length_map_to_list|].
  intros b. rewrite List.in_map_iff. split.
  - intros ([k v] & <- & Hin). cbn.
    apply list_elem_of_In, elem_of_map_to_list in Hin. auto.
  - intros [Hlook Hassess].
    exists (Zone.dma b, Zone.data b). split.
    + destruct b as [dma data a]. cbn in *. unfold block_of. now rewrite Hassess.
    + now apply list_elem_of_In, elem_of_map_to_list.
Qed.

(** ** Minimum night flow, continued *)

Lemma min_le_mean (x : Q) (rest : list Q) :
  fold_left (fun m y => if Qlt_le_dec y m then y else m) rest x
  <= Py.sum (x :: rest) / Py.len (x :: rest).
Proof.
  destruct (fold_min_spec rest x) as [_ Hmin]. cbv zeta in Hmin.
  pose proof (sum_lower _ _ Hmin).
  apply Qle_shift_div_l; [apply len_pos; discriminate|lra].
Qed.

(** X12.  In a result with samples, [mnf] is one of [flow_values] and no
    more than any of them; [flow_values] are as many as [data_points] says,
    and no more than the samples given. *)
Theorem calculate_mnf_ordered (flow_data : list Flow.t) (hour_range : Z * Z)
    (r : mnf_result) :
  calculate_mnf flow_data hour_range = Ok r ->
  (data_points r <= length flow_data)%nat /\
  (data_points r <> 0%nat ->
   exists vs,
     flow_values r = Some vs /\ length vs = data_points r /\
     In (mnf r) vs /\
     forall v, In v vs -> mnf r <= v).
Proof.
  intros Hr.
  destruct (calculate_mnf_Ok _ _ _ Hr) as (flows & Hkept & ->).
  assert (Hlen : (length flows <= length flow_data)%nat).
  { apply floats_Forall2, List.Forall2_length in Hkept. rewrite <- Hkept.
    apply List.filter_length_le. }
  destruct flows as [|x rest];
    cbn [mnf_of data_points mnf avg_flow flow_values].
  - split; [lia|]. congruence.
  - split; [exact Hlen|]. intros _.
    destruct (fold_min_spec rest x) as [Hin Hmin]. cbv zeta in Hin, Hmin.
    eexists. split; [reflexivity|].
    split; [now rewrite List.length_map|]. split.
    + apply List.in_map_iff. eauto.
    + intros v Hv. apply List.in_map_iff in Hv as (f & <- & Hf).
      apply round_mono. now apply Hmin.
Qed.

(** The samples of the day: three of six are kept, and 8 is the least. *)
Lemma calculate_mnf_ordered_witness :
  exists vs,
    Some [10; 8; 12] = Some vs /\ length vs = 3%nat /\ In 8 vs.
Proof.
  destruct (proj2 (calculate_mnf_ordered day_flow default_hour_range
                     {| mnf := 8; avg_flow := 10; data_points := 3;
                        flow_values := Some [10; 8; 12] |} eq_refl))
    as (vs & Hvs & Hlen & Hin & _); [discriminate|].
  exists vs. auto.
Defined.

(** X13.  A range whose end is not after its start keeps no sample: when
    every hour parses the result is the zero result, whatever the samples. *)
Theorem calculate_mnf_inverted_range (flow_data : list Flow.t)
    (hour_range : Z * Z) :
  (hour_range.2 <= hour_range.1)%Z ->
  (forall data, In data flow_data ->
     exists hour, hour_of (Flow.time data) = Ok hour) ->
  calculate_mnf flow_data hour_range
  = Ok {| mnf := 0; avg_flow := 0; data_points := 0; flow_values := None |}.
Proof.
  intros Hinv Hparse. apply calculate_mnf_none_kept; [exact Hparse|].
  intros data _. destruct (in_window hour_range data) eqn:E; [|reflexivity].
  apply in_window_spec in E as (hour & _ & Hin). lia.
Qed.

(** The sample series against the range from 4 to 2. *)
Lemma calculate_mnf_inverted_range_witness :
  calculate_mnf sample_flow (4, 2)%Z
  = Ok {| mnf := 0; avg_flow := 0; data_points := 0; flow_values := None |}.
Proof.
  apply calculate_mnf_inverted_range; [cbn; lia|].
  intros data Hdata. cbn in Hdata.
  destruct Hdata as [<-|[<-|[<-|[]]]]; eexists; reflexivity.
Defined.

Lemma split_head_app (sep : ascii) (before after : string) :
  (forall c, In c (list_ascii_of_string before) -> c <> sep) ->
  Py.split_head sep (before ++ String sep after) = before.
Proof.
  induction before as [|c before IH]; intros H;
    simpl in *.
  - now rewrite Ascii.eqb_refl.
  - destruct (Ascii.eqb c sep) eqn:E.
    + apply Ascii.eqb_eq in E. exfalso. apply (H c); [now left|exact E].
    + f_equal. apply IH. intros c' Hc'. apply H. now right.
Qed.

Lemma split_head_whole (sep : ascii) (s : string) :
  (forall c, In c (list_ascii_of_string s) -> c <> sep) ->
  Py.split_head sep s = s.
Proof.
  induction s as [|c s IH]; intros H;
    simpl in *; [reflexivity|].
  destruct (Ascii.eqb c sep) eqn:E.
  - apply Ascii.eqb_eq in E. exfalso. apply (H c); [now left|exact E].
  - f_equal. apply IH. intros c' Hc'. apply H. now right.
Qed.

(** X14.  Only the text before the first colon of [time] counts for the
    hour: what follows the colon is never read, and a [time] without colon
    is read as a whole. *)
Theorem hour_of_prefix (before after : string) :
  (forall c, In c (list_ascii_of_string before) -> c <> ":"%char) ->
  hour_of (before ++ String ":" after) = Py.int before /\
  hour_of before = Py.int before.
Proof.
  intros H. unfold hour_of.
  now rewrite split_head_app, split_head_whole.
Qed.

(** The hour of a time with seconds and a zone is still 2. *)
Lemma hour_of_prefix_witness :
  hour_of "02:30:15+08:00" = Ok 2%Z /\ hour_of "02" = Ok 2%Z.
Proof.
  destruct (hour_of_prefix "02" "30:15+08:00") as [H1 H2].
  - intros c Hc. cbn in Hc. destruct Hc as [<-|[<-|[]]]; discriminate.
  - split; [exact H1|exact H2].
Defined.

(** ** Pressure anomalies, continued *)

Lemma fold_max_spec (rest : list Q) : forall x,
  let m := fold_left (fun m y => if Qlt_le_dec m y then y else m) rest x in
  In m (x :: rest) /\ forall y, In y (x :: rest) -> y <= m.
Proof.
  induction rest as [|z rest IH]; intros x; cbn.
  - split; [now left|]. intros y [<-|[]]. lra.
  - destruct (Qlt_le_dec x z) as [Hlt|Hle].
    + destruct (IH z) as [Hin Hmax]. split.
      * right. exact Hin.
      * intros y [<-|Hy]; [|now apply Hmax].
        pose proof (Hmax z (or_introl eq_refl)). cbv zeta in *. lra.
    + destruct (IH x) as [Hin Hmax]. split.
      * destruct Hin as [<-|Hin]; [now left|]. right; now right.
      * intros y [<-|[<-|Hy]].
        -- apply Hmax. now left.
        -- pose proof (Hmax x (or_introl eq_refl)). cbv zeta in *. lra.
        -- apply Hmax. now right.
Qed.

Lemma mean_le_max (x : Q) (rest : list Q) :
  Py.sum (x :: rest) / Py.len (x :: rest)
  <= fold_left (fun m y => if Qlt_le_dec m y then y else m) rest x.
Proof.
  destruct (fold_max_spec rest x) as [_ Hmax]. cbv zeta in Hmax.
  pose proof (sum_upper _ _ Hmax).
  apply Qle_shift_div_r; [apply len_pos; discriminate|lra].
Qed.

Lemma deviation_value_nonneg (avg_pressure pressure : Q) :
  0 <= deviation_value avg_pressure pressure.
Proof.
  unfold deviation_value. destruct (Qlt_le_dec 0 avg_pressure); [|lra].
  apply Qle_shift_div_l; [assumption|].
  pose proof (Qabs_nonneg (pressure - avg_pressure)). lra.
Qed.

Lemma flagged_from_length (avg_pressure threshold : Q)
    (pressure_data : list Pressure.t) : forall i,
  (length (flagged_from avg_pressure threshold i pressure_data)
   <= length pressure_data)%nat.
Proof.
  induction pressure_data as [|data rest IH]; intros i; cbn; [lia|].
  destruct (Qlt_le_dec threshold
              (deviation_value avg_pressure (Pressure.pressure data))); cbn.
  - specialize (IH (S i)). lia.
  - specialize (IH (S i)). lia.
Qed.

Lemma flagged_from_all (avg_pressure threshold : Q)
    (pressure_data : list Pressure.t) : forall i,
  (forall data, In data pressure_data ->
     threshold < deviation_value avg_pressure (Pressure.pressure data)) ->
  flagged_from avg_pressure threshold i pressure_data
  = imap (fun k data => anomaly_at avg_pressure (i + k) data) pressure_data.
Proof.
  induction pressure_data as [|data rest IH]; intros i H; cbn; [reflexivity|].
  destruct (Qlt_le_dec threshold
              (deviation_value avg_pressure (Pressure.pressure data)))
    as [_|Hnot].
  - rewrite Nat.add_0_r. f_equal.
    rewrite IH by (intros d Hd; apply H; now right).
    apply imap_ext. intros k d _. cbn. f_equal. lia.
  - pose proof (H data (or_introl eq_refl)). lra.
Qed.

Lemma flagged_from_none (avg_pressure threshold : Q)
    (pressure_data : list Pressure.t) : forall i,
  (forall data, In data pressure_data ->
     deviation_value avg_pressure (Pressure.pressure data) <= threshold) ->
  flagged_from avg_pressure threshold i pressure_data = [].
Proof.
  induction pressure_data as [|data rest IH]; intros i H; cbn; [reflexivity|].
  destruct (Qlt_le_dec threshold
              (deviation_value avg_pressure (Pressure.pressure data)))
    as [Hflag|_].
  - pose proof (H data (or_introl eq_refl)). lra.
  - apply IH. intros d Hd. apply H. now right.
Qed.

Lemma imap_anomaly_index (avg_pressure : Q) (pressure_data : list Pressure.t) :
  forall i,
    map Anomaly.index
      (imap (fun k data => anomaly_at avg_pressure (i + k) data) pressure_data)
    = seq i (length pressure_data).
Proof.
  induction pressure_data as [|data rest IH]; intros i; cbn; [reflexivity|].
  rewrite Nat.add_0_r. f_equal. rewrite <- (IH (S i)). f_equal.
  apply imap_ext. intros k d _. cbn. f_equal. lia.
Qed.

Section DetectorFacts.

Variable sqrt : Q -> Q.

(** X15.  In a report the least pressure is no more than the average and
    the average no more than the greatest, all three as reported; there are
    no more anomalies than samples, and every anomaly repeats the average
    of the report. *)
Theorem pressure_report_ordered (pressure_data : list Pressure.t)
    (threshold : Q) (r : pressure_report) :
  detect_pressure_anomaly sqrt pressure_data threshold = Ok r ->
  min_pressure r <= avg_pressure r /\
  avg_pressure r <= max_pressure r /\
  (anomaly_count r <= length pressure_data)%nat /\
  forall a, In a (anomalies r) -> Anomaly.avg_pressure a = avg_pressure r.
Proof.
  intros Hr.
  pose proof (detect_pressure_anomaly_nonempty _ _ _ _ Hr) as Hne.
  destruct (detect_pressure_anomaly_Ok sqrt pressure_data threshold Hne)
    as (lo & hi & Hlo & Hhi & Hr').
  rewrite Hr' in Hr. injection Hr as <-. clear Hr'.
  cbn [min_pressure avg_pressure max_pressure anomaly_count anomalies].
  destruct pressure_data as [|d0 rest]; [congruence|].
  cbn [map] in *. injection Hlo as <-. injection Hhi as <-.
  split; [apply round_mono, min_le_mean|].
  split; [apply round_mono, mean_le_max|].
  split; [apply flagged_from_length|].
  intros a Ha. apply flagged_from_In in Ha as (k & d & _ & _ & ->).
  reflexivity.
Qed.

(** X17.  A negative threshold flags every sample: the anomalies are as
    many as the samples. *)
Theorem negative_threshold_flags_all (pressure_data : list Pressure.t)
    (threshold : Q) (r : pressure_report) :
  detect_pressure_anomaly sqrt pressure_data threshold = Ok r ->
  threshold < 0 ->
  anomaly_count r = length pressure_data /\
  map Anomaly.index (anomalies r) = seq 0 (length pressure_data).
Proof.
  intros Hr Hneg.
  pose proof (detect_pressure_anomaly_nonempty _ _ _ _ Hr) as Hne.
  destruct (detect_pressure_anomaly_Ok sqrt pressure_data threshold Hne)
    as (lo & hi & _ & _ & Hr').
  rewrite Hr' in Hr. injection Hr as <-. clear Hr'.
  cbn [anomaly_count anomalies].
  rewrite flagged_from_all.
  - split; [apply length_imap|apply imap_anomaly_index].
  - intros d _. pose proof (deviation_value_nonneg
      (Py.sum (map Pressure.pressure pressure_data)
       / Py.len (map Pressure.pressure pressure_data)) (Pressure.pressure d)).
    lra.
Qed.

(** X18.  When the mean pressure is not positive and the threshold is not
    negative, nothing is flagged, however far the samples lie apart. *)
Theorem nonpositive_mean_flags_none (pressure_data : list Pressure.t)
    (threshold mean : Q) (r : pressure_report) :
  detect_pressure_anomaly sqrt pressure_data threshold = Ok r ->
  Py.mean (map Pressure.pressure pressure_data) = Ok mean ->
  mean <= 0 ->
  0 <= threshold ->
  anomalies r = [] /\ anomaly_count r = 0%nat.
Proof.
  intros Hr Hmean Hnonpos Hth.
  pose proof (detect_pressure_anomaly_nonempty _ _ _ _ Hr) as Hne.
  destruct (detect_pressure_anomaly_Ok sqrt pressure_data threshold Hne)
    as (lo & hi & _ & _ & Hr').
  rewrite Hr' in Hr. injection Hr as <-. clear Hr'.
  cbn [anomaly_count anomalies].
  assert (Hm : Py.sum (map Pressure.pressure pressure_data)
               / Py.len (map Pressure.pressure pressure_data) = mean).
  { destruct pressure_data; [congruence|]. now injection Hmean. }
  rewrite Hm, flagged_from_none; [split; reflexivity|].
  intros d _. unfold deviation_value.
  destruct (Qlt_le_dec 0 mean); lra.
Qed.

(** X19.  A series whose samples all show the same pressure raises no
    anomaly, whenever the threshold is not negative. *)
Theorem constant_series_flags_none (pressure_data : list Pressure.t)
    (threshold p : Q) (r : pressure_report) :
  detect_pressure_anomaly sqrt pressure_data threshold = Ok r ->
  (forall data, In data pressure_data -> Pressure.pressure data == p) ->
  0 <= threshold ->
  anomalies r = [] /\ anomaly_count r = 0%nat.
Proof.
  intros Hr Hconst Hth.
  pose proof (detect_pressure_anomaly_nonempty _ _ _ _ Hr) as Hne.
  destruct (detect_pressure_anomaly_Ok sqrt pressure_data threshold Hne)
    as (lo & hi & _ & _ & Hr').
  rewrite Hr' in Hr. injection Hr as <-. clear Hr'.
  cbn [anomaly_count anomalies].
  set (pressures := map Pressure.pressure pressure_data).
  assert (Hne' : pressures <> []).
  { subst pressures. now destruct pressure_data. }
  assert (Hall : forall y, In y pressures -> y == p).
  { intros y Hy. apply List.in_map_iff in Hy as (d & <- & Hd). now apply Hconst. }
  assert (Hmean : Py.sum pressures / Py.len pressures == p).
  { pose proof (len_pos _ Hne') as Hlen.
    assert (Py.len pressures * p <= Py.sum pressures)
      by (apply sum_lower; intros y Hy; rewrite (Hall y Hy); lra).
    assert (Py.sum pressures <= Py.len pressures * p)
      by (apply sum_upper; intros y Hy; rewrite (Hall y Hy); lra).
    apply Qle_antisym.
    - apply Qle_shift_div_r; [exact Hlen|lra].
    - apply Qle_shift_div_l; [exact Hlen|lra]. }
  rewrite flagged_from_none; [split; reflexivity|].
  intros d Hd. unfold deviation_value.
  destruct (Qlt_le_dec 0 (Py.sum pressures / Py.len pressures)) as [Hpos|];
    [|exact Hth].
  assert (Hzero : Pressure.pressure d - Py.sum pressures / Py.len pressures == 0)
    by (rewrite Hmean, (Hconst d Hd); lra).
  rewrite Hzero. change (Qabs 0) with 0.
  unfold Qdiv. rewrite Qmult_0_l. exact Hth.
Qed.

End DetectorFacts.

(** A steady series and a series around zero. *)
Lemma pressure_report_ordered_witness :
  exists r,
    detect_pressure_anomaly sqrt_cut sample_pressure default_threshold = Ok r /\
    min_pressure r <= avg_pressure r /\ avg_pressure r <= max_pressure r.
Proof.
  destruct (detect_pressure_anomaly_Ok sqrt_cut sample_pressure
              default_threshold) as (lo & hi & _ & _ & Hr); [discriminate|].
  eexists. split; [exact Hr|].
  destruct (pressure_report_ordered sqrt_cut _ _ _ Hr) as (H1 & H2 & _).
  split; assumption.
Defined.

(** The sample series against the threshold -1: five anomalies. *)
Lemma negative_threshold_flags_all_witness :
  exists r,
    detect_pressure_anomaly sqrt_cut sample_pressure (-1) = Ok r /\
    anomaly_count r = 5%nat.
Proof.
  destruct (detect_pressure_anomaly_Ok sqrt_cut sample_pressure (-1))
    as (lo & hi & _ & _ & Hr); [discriminate|].
  eexists. split; [exact Hr|].
  apply (proj1 (negative_threshold_flags_all sqrt_cut _ _ _ Hr
                  ltac:(reflexivity))).
Defined.

(** The two samples around the mean -1, against the default threshold. *)
Lemma nonpositive_mean_flags_none_witness :
  exists r,
    detect_pressure_anomaly sqrt_cut vacuum_pressure default_threshold = Ok r /\
    anomalies r = [].
Proof.
  destruct (detect_pressure_anomaly_Ok sqrt_cut vacuum_pressure
              default_threshold) as (lo & hi & _ & _ & Hr); [discriminate|].
  eexists. split; [exact Hr|].
  apply (proj1 (nonpositive_mean_flags_none sqrt_cut _ _ _ _ Hr eq_refl
                  ltac:(discriminate) ltac:(discriminate))).
Defined.

(** Three samples of 0.45. *)
Lemma constant_series_flags_none_witness :
  exists r,
    detect_pressure_anomaly sqrt_cut
      [ {| Pressure.time := "08:00"; Pressure.pressure := 45 # 100 |};
        {| Pressure.time := "09:00"; Pressure.pressure := 45 # 100 |};
        {| Pressure.time := "10:00"; Pressure.pressure := 45 # 100 |} ]
      default_threshold = Ok r /\
    anomalies r = [].
Proof.
  match goal with |- context [detect_pressure_anomaly _ ?d _] =>
    destruct (detect_pressure_anomaly_Ok sqrt_cut d default_threshold)
      as (lo & hi & _ & _ & Hr); [discriminate|]
  end.
  eexists. split; [exact Hr|].
  apply (proj1 (constant_series_flags_none sqrt_cut _ _ (45 # 100) _ Hr
                  ltac:(intros d [<-|[<-|[<-|[]]]]; reflexivity)
                  ltac:(discriminate))).
Defined.
